(** * RTVM Tool: removal of previously submitted change requests

    A shallow embedding of [RemovalTool._process_removal]
    (rtvm/removal-tool.py) and the properties of its reconciliation core:
    line extraction, the index over the old submission, the per-row
    filtering loop, the write-back into the persisted worksheet and the
    result message. *)

From Stdlib Require Import String Ascii List Arith Lia DecimalString.
From stdpp Require Import base option list gmap sets strings.

Local Open Scope string_scope.
Local Open Scope list_scope.
Local Open Scope stdpp_scope.

(** ** Python strings

    A [str] is a Rocq [string]; a character of type [ascii] stands for the
    code point of the same number (U+0000 to U+00FF). *)
Module PyStr.

(** ['\n'] *)
Definition nl : ascii := "010"%char.

Definition NL : string := String nl "".

(** [str.isspace] on one code point below 256: TAB..CR, FS..US, SPACE,
    NEL (0x85) and NBSP (0xA0). *)
Definition isspace (c : ascii) : bool :=
  let n := nat_of_ascii c in
  (((9 <=? n) && (n <=? 13)) || ((28 <=? n) && (n <=? 32))
   || (n =? 133) || (n =? 160))%nat.

(** [s.lstrip()] *)
Fixpoint lstrip (s : string) : string :=
  match s with
  | "" => ""
  | String c s' => if isspace c then lstrip s' else s
  end.

(** [s.rstrip()] *)
Fixpoint rstrip (s : string) : string :=
  match s with
  | "" => ""
  | String c s' =>
      match rstrip s' with
      | "" => if isspace c then "" else String c ""
      | r => String c r
      end
  end.

(** [s.strip()] *)
Definition strip (s : string) : string := rstrip (lstrip s).

(** [s.split('\n')]: never empty, one more piece than there are
    newlines. *)
Fixpoint split_nl (s : string) : list string :=
  match s with
  | "" => [""]
  | String c s' =>
      if decide (c = nl) then "" :: split_nl s'
      else match split_nl s' with
           | [] => [String c ""]
           | l :: ls => String c l :: ls
           end
  end.

(** ['\n'.join(ls)] *)
Fixpoint join_nl (ls : list string) : string :=
  match ls with
  | [] => ""
  | [l] => l
  | l :: ls' => l +:+ String nl (join_nl ls')
  end.

(** [str(n)] for a non-negative [int]. *)
Definition str_of_nat (n : nat) : string :=
  NilEmpty.string_of_uint (Nat.to_uint n).

(** No character of [s] is a newline. *)
Fixpoint no_nl (s : string) : Prop :=
  match s with
  | "" => True
  | String c s' => c ≠ nl ∧ no_nl s'
  end.

(** Every character of [s] is whitespace. *)
Fixpoint all_space (s : string) : bool :=
  match s with
  | "" => true
  | String c s' => isspace c && all_space s'
  end.

(** [s] does not begin with whitespace. *)
Definition head_nonspace (s : string) : Prop :=
  match s with
  | "" => True
  | String c _ => isspace c = false
  end.

(** [s] does not end with whitespace. *)
Fixpoint last_nonspace (s : string) : Prop :=
  match s with
  | "" => True
  | String c "" => isspace c = false
  | String _ s' => last_nonspace s'
  end.

(** A line as the tool keeps it: stripped, not empty, on one line. *)
Definition clean_line (l : string) : Prop :=
  strip l = l ∧ l ≠ "" ∧ no_nl l.

End PyStr.
Import PyStr.

(** ** Data frames

    A cell of a data frame is [None] when [pd.isna] holds of it and
    [Some s] otherwise, [s] being [str] of its value.  A row carries the
    three cells the tool reads: column 0 (after [astype(str)]), column 6
    ("Proposed Changes") and the column named
    "Contractor Proposed Change Comment Input", taken to be a third
    column.  A data frame has the default [RangeIndex], so the label
    [idx] given by [iterrows] is the position of the row. *)
Definition cell := option string.

Record Row := mkRow {
  object_id : string;
  pattern_text : cell;
  comment_text : cell;
}.

Abbreviation DataFrame := (list Row).

(** [if pd.isna(x): x = ""] followed by [str(x)]. *)
Definition cell_str (c : cell) : string := default "" c.

(** [[line.strip() for line in str(x).split('\n') if line.strip()]] *)
Definition extract_lines (c : cell) : list string :=
  strip <$> filter (λ line, strip line ≠ "") (split_nl (cell_str c)).

(** ** The index over the old submission (lines 189-217)

    The value stored under an object id is a Python dict that always has
    the key ['patterns'] and gets the key ['comments'] in the second
    loop. *)
Record Entry := mkEntry {
  patterns : gset string;
  comments : option (gset string);
}.

(** Body of the first loop:
    [old_patterns_map[obj_id] = {'patterns': old_patterns_set}]. *)
Definition index_patterns_step (m : gmap string Entry) (row : Row)
  : gmap string Entry :=
  let obj_id := object_id row in
  let old_lines := extract_lines (pattern_text row) in
  let old_patterns_set : gset string := list_to_set old_lines in
  <[obj_id := mkEntry old_patterns_set None]> m.

(** Body of the second loop: an absent id first gets
    [{'patterns': set()}], then
    [old_patterns_map[obj_id]['comments'] = old_comments_set]. *)
Definition index_comments_step (m : gmap string Entry) (row : Row)
  : gmap string Entry :=
  let obj_id := object_id row in
  let old_comment_lines := extract_lines (comment_text row) in
  let old_comments_set : gset string := list_to_set old_comment_lines in
  let m' := match m !! obj_id with
            | Some _ => m
            | None => <[obj_id := mkEntry ∅ None]> m
            end in
  alter (λ e, mkEntry (patterns e) (Some old_comments_set)) obj_id m'.

(** The map [old_patterns_map] once both loops over [old_df] have run
    (the snapshot indexer, [build_index]). *)
Definition old_patterns_map (old_df : DataFrame) : gmap string Entry :=
  fold_left index_comments_step old_df
    (fold_left index_patterns_step old_df ∅).

(** ** The removal loop (lines 220-272) *)

(** [f"Row {idx+2}: {line}"] *)
Definition removed_entry (idx : nat) (line : string) : string :=
  "Row " +:+ str_of_nat (idx + 2) +:+ ": " +:+ line.

(** Body of the inner loop over the lines of one cell: a line of the old
    set is reported, any other line is kept. *)
Definition filter_step (old_set : gset string) (idx : nat)
    (acc : list string * list string) (line : string)
  : list string * list string :=
  let '(filtered_lines, removed) := acc in
  if decide (line ∈ old_set)
  then (filtered_lines, removed ++ [removed_entry idx line])
  else (filtered_lines ++ [line], removed).

(** The inner loop, started with [filtered_lines = []] and the report
    list accumulated so far. *)
Definition filter_loop (old_set : gset string) (idx : nat)
    (removed : list string) (new_lines : list string)
  : list string * list string :=
  fold_left (filter_step old_set idx) new_lines ([], removed).

(** What the loop over the rows of the data frame carries. *)
Record State := mkState {
  df : DataFrame;
  changes_made : bool;
  removed_patterns : list string;
  removed_comments : list string;
}.

(** [df.iat[idx, proposed_changes_col] = v] *)
Definition set_pattern (v : string) (r : Row) : Row :=
  mkRow (object_id r) (Some v) (comment_text r).

(** [df.iat[idx, comment_col] = v] *)
Definition set_comment (v : string) (r : Row) : Row :=
  mkRow (object_id r) (pattern_text r) (Some v).

(** Lines 233-252: the pattern half of one iteration. *)
Definition remove_patterns (m : gmap string Entry) (idx : nat) (row : Row)
    (st : State) : State :=
  let obj_id := object_id row in
  let new_lines := extract_lines (pattern_text row) in
  match m !! obj_id with
  | Some e =>
      let '(filtered_lines, removed) :=
        filter_loop (patterns e) idx (removed_patterns st) new_lines in
      if decide (length filtered_lines ≠ length new_lines)
      then mkState (alter (set_pattern (join_nl filtered_lines)) idx (df st))
                   true removed (removed_comments st)
      else mkState (df st) (changes_made st) removed (removed_comments st)
  | None => st
  end.

(** Lines 254-272: the comment half of one iteration. *)
Definition remove_comments (m : gmap string Entry) (idx : nat) (row : Row)
    (st : State) : State :=
  let obj_id := object_id row in
  let new_comment_lines := extract_lines (comment_text row) in
  match m !! obj_id with
  | Some e =>
      match comments e with
      | Some old_comments_set =>
          let '(filtered_comment_lines, removed) :=
            filter_loop old_comments_set idx (removed_comments st)
                        new_comment_lines in
          if decide (length filtered_comment_lines ≠ length new_comment_lines)
          then mkState
                 (alter (set_comment (join_nl filtered_comment_lines)) idx
                        (df st))
                 true (removed_patterns st) removed
          else mkState (df st) (changes_made st) (removed_patterns st) removed
      | None => st
      end
  | None => st
  end.

(** One iteration of [for idx, row in self.app.model.df.iterrows()]. *)
Definition remove_row (m : gmap string Entry) (st : State)
    (ir : nat * Row) : State :=
  remove_comments m ir.1 ir.2 (remove_patterns m ir.1 ir.2 st).

(** [iterrows] hands out each row as it stood when the loop began: an
    iteration only writes cells of its own row. *)
Definition remove_rows (m : gmap string Entry) (new_df : DataFrame) : State :=
  fold_left (remove_row m) (imap pair new_df) (mkState new_df false [] []).

(** *** The result of one row

    What one iteration computes, read off the body above: the lines that
    stay in each of the two cells, the report entries it appends and
    whether it sets [changes_made]. *)
Record RowResult := mkRowResult {
  filtered_pattern_lines : list string;
  filtered_comment_lines : list string;
  removed_pattern_lines : list string;
  removed_comment_lines : list string;
  changed : bool;
}.

Definition reconcile_row (m : gmap string Entry) (idx : nat) (row : Row)
  : RowResult :=
  let new_lines := extract_lines (pattern_text row) in
  let new_comment_lines := extract_lines (comment_text row) in
  let p := match m !! object_id row with
           | Some e => filter_loop (patterns e) idx [] new_lines
           | None => (new_lines, [])
           end in
  let c := match m !! object_id row ≫= comments with
           | Some old_comments_set =>
               filter_loop old_comments_set idx [] new_comment_lines
           | None => (new_comment_lines, [])
           end in
  mkRowResult p.1 c.1 p.2 c.2
    (bool_decide (length p.1 ≠ length new_lines)
     || bool_decide (length c.1 ≠ length new_comment_lines)).

(** [reconcile(current, index)]: one result per row, in order. *)
Definition reconcile (m : gmap string Entry) (new_df : DataFrame)
  : list RowResult :=
  imap (reconcile_row m) new_df.

(** The row as the iteration leaves it in the data frame: a cell is
    rewritten only when its number of lines went down. *)
Definition updated_row (m : gmap string Entry) (idx : nat) (row : Row) : Row :=
  let r := reconcile_row m idx row in
  let new_lines := extract_lines (pattern_text row) in
  let new_comment_lines := extract_lines (comment_text row) in
  mkRow (object_id row)
    (if decide (length (filtered_pattern_lines r) ≠ length new_lines)
     then Some (join_nl (filtered_pattern_lines r)) else pattern_text row)
    (if decide (length (filtered_comment_lines r) ≠ length new_comment_lines)
     then Some (join_nl (filtered_comment_lines r)) else comment_text row).

(** The row with both cells holding the kept lines joined by newlines,
    changed or not (the serialized result of the row). *)
Definition serialized_row (m : gmap string Entry) (idx : nat) (row : Row)
  : Row :=
  let r := reconcile_row m idx row in
  mkRow (object_id row)
        (Some (join_nl (filtered_pattern_lines r)))
        (Some (join_nl (filtered_comment_lines r))).

(** The two cell writes of one iteration on a data frame [d]. *)
Definition write_cells (m : gmap string Entry) (idx : nat) (row : Row)
    (d : DataFrame) : DataFrame :=
  let r := reconcile_row m idx row in
  let d1 :=
    if decide (length (filtered_pattern_lines r)
               ≠ length (extract_lines (pattern_text row)))
    then alter (set_pattern (join_nl (filtered_pattern_lines r))) idx d
    else d in
  if decide (length (filtered_comment_lines r)
             ≠ length (extract_lines (comment_text row)))
  then alter (set_comment (join_nl (filtered_comment_lines r))) idx d1
  else d1.

(** The set a row's pattern lines are tested against: the ['patterns'] of
    its entry, nothing when the id has no entry. *)
Definition old_pattern_set (m : gmap string Entry) (obj_id : string)
  : gset string :=
  default ∅ (patterns <$> m !! obj_id).

(** The same for comment lines: the ['comments'] of its entry, nothing
    when the id has no entry or the entry has no such key. *)
Definition old_comment_set (m : gmap string Entry) (obj_id : string)
  : gset string :=
  default ∅ (m !! obj_id ≫= comments).

(** The extractor in the words of the specification: null is the empty
    string; split on newlines, trim every line, discard the lines that are
    empty after trimming. *)
Definition extract_spec (text : option string) : list string :=
  let text := match text with Some s => s | None => "" end in
  filter (λ line, line ≠ "") (strip <$> split_nl text).

(** ** Column checks (lines 155-180) *)

Definition proposed_changes_col : nat := 6.

Definition comment_col_name : string :=
  "Contractor Proposed Change Comment Input".

(** [columns.get_loc(name)] on column labels without repetition. *)
Fixpoint get_loc (name : string) (columns : list string) : option nat :=
  match columns with
  | [] => None
  | c :: columns' =>
      if decide (c = name) then Some 0 else S <$> get_loc name columns'
  end.

(** The position of the comment column, or the text of the ['error']
    message put on the queue. *)
Definition locate_columns (new_columns old_columns : list string)
  : string + nat :=
  match get_loc comment_col_name new_columns with
  | None =>
      inl ("Column '" +:+ comment_col_name +:+ "' not found in new file.")
  | Some comment_col =>
      if decide (length new_columns ≤ proposed_changes_col)%nat
      then inl "Proposed Changes column not found in new file."
      else if decide (length old_columns ≤ proposed_changes_col)%nat
      then inl "Proposed Changes column not found in old file."
      else if decide (length new_columns ≤ comment_col)%nat
      then inl ("'" +:+ comment_col_name +:+ "' column not found in new file.")
      else if decide (length old_columns ≤ comment_col)%nat
      then inl ("'" +:+ comment_col_name +:+ "' column not found in old file.")
      else inr comment_col
  end.

(** ** The persisted worksheet (lines 281-312)

    The active sheet of the workbook at [excel_file_path]: [max_column]
    and the cells that hold a value, by 1-based (row, column); a cell
    without a value reads as [None]. *)
Record Worksheet := mkWorksheet {
  max_column : nat;
  ws_cells : gmap (nat * nat) string;
}.

(** [ws.cell(row=r, column=c).value] *)
Definition cell_value (ws : Worksheet) (r c : nat) : option string :=
  ws_cells ws !! (r, c).

(** [ws.cell(row=r, column=c, value=v)] with [v] not [None]. *)
Definition cell_write (ws : Worksheet) (r c : nat) (v : string) : Worksheet :=
  mkWorksheet (max_column ws `max` c) (<[(r, c) := v]> (ws_cells ws)).

(** The search of row 1 for the header of the comment column; the
    variable [comment_col_letter] stays [None] when no header matches. *)
Definition find_comment_col (ws : Worksheet) : option nat :=
  List.find (λ col, bool_decide (cell_value ws 1 col = Some comment_col_name))
            (seq 1 (max_column ws)).

(** Body of [for idx, row in enumerate(self.app.model.df.iterrows())]:
    column 7 is written for every row, the comment column whenever its
    header was found. *)
Definition write_row (comment_col_letter : option nat) (ws : Worksheet)
    (ir : nat * Row) : Worksheet :=
  let '(idx, row_data) := ir in
  let new_content := cell_str (pattern_text row_data) in
  let ws1 := cell_write ws (idx + 2) 7 new_content in
  let new_comment_content := cell_str (comment_text row_data) in
  match comment_col_letter with
  | Some col => cell_write ws1 (idx + 2) col new_comment_content
  | None => ws1
  end.

(** Lines 290-312: header search, the loop over all rows, [wb.save]. *)
Definition write_back (new_df : DataFrame) (ws : Worksheet) : Worksheet :=
  fold_left (write_row (find_comment_col ws)) (imap pair new_df) ws.

(** ** The result message (lines 314-327) *)

(** ["\n... and {len(removed) - 20} more"], appended when more than 20
    entries exist. *)
Definition more_line (removed : list string) : string :=
  if decide (20 < length removed)
  then NL +:+ "... and " +:+ str_of_nat (length removed - 20) +:+ " more"
  else "".

Definition result_message (removed_patterns removed_comments : list string)
  : string :=
  "Successfully removed " +:+ str_of_nat (length removed_patterns)
  +:+ " previously submitted patterns and "
  +:+ str_of_nat (length removed_comments)
  +:+ " previously submitted comments." +:+ NL +:+ NL
  +:+ "Removed patterns:" +:+ NL +:+ join_nl (take 20 removed_patterns)
  +:+ more_line removed_patterns
  +:+ NL +:+ NL +:+ "Removed comments:" +:+ NL
  +:+ join_nl (take 20 removed_comments)
  +:+ more_line removed_comments.

Definition no_changes_message : string :=
  "No previously submitted requests or comments were found to remove.".

(** ** The whole operation

    What [_process_removal] puts on the queue last. *)
Inductive Message :=
  | MsgError (text : string)
  | MsgResult (text : string).

Definition is_error (msg : Message) : bool :=
  match msg with
  | MsgError _ => true
  | MsgResult _ => false
  end.

(** From the loaded data frames and the persisted worksheet to the final
    message, the data frame in memory and the worksheet as saved.  Lines
    184-185 rewrite column 0 of both frames as text in place; they show
    here only in [object_id] being a string, so nothing is said of
    column 0 of the live frame beyond its text. *)
Definition process_removal (new_columns old_columns : list string)
    (old_df new_df : DataFrame) (ws : Worksheet)
  : Message * DataFrame * Worksheet :=
  match locate_columns new_columns old_columns with
  | inl err => (MsgError err, new_df, ws)
  | inr _ =>
      let m := old_patterns_map old_df in
      let st := remove_rows m new_df in
      if changes_made st
      then (MsgResult (result_message (removed_patterns st)
                                      (removed_comments st)),
            df st, write_back (df st) ws)
      else (MsgResult no_changes_message, df st, ws)
  end.

(** ** The diff summary in the words of the specification

    One category of the summary: the rendered list is capped at 20
    entries; if more exist, a count of the remainder is kept and the
    summary is truncated. *)
Record CategorySummary := mkCategorySummary {
  rendered : list string;
  remainder : option nat;
}.

Definition summarize_category (removed : list string) : CategorySummary :=
  if decide (20 < length removed)
  then mkCategorySummary (take 20 removed) (Some (length removed - 20))
  else mkCategorySummary removed None.

Definition truncated (s : CategorySummary) : bool :=
  bool_decide (is_Some (remainder s)).

(** The lines shown for a category: the rendered entries, then the count
    of the remainder when there is one. *)
Definition render_category (s : CategorySummary) : list string :=
  rendered s
  ++ match remainder s with
     | Some n => ["... and " +:+ str_of_nat n +:+ " more"]
     | None => []
     end.

(** An entry of the form ["Row {display_row}: {line}"], for a row of a
    data frame of [n] rows. *)
Definition is_removed_entry (n : nat) (s : string) : Prop :=
  ∃ idx line, idx < n ∧ s = "Row " +:+ str_of_nat (idx + 2) +:+ ": " +:+ line.

(** ** Sample inputs *)

(** Column labels with "Proposed Changes" at position 6 and the comment
    column at position 7. *)
Definition sample_columns : list string :=
  ["Object ID"; "B"; "C"; "D"; "E"; "F"; "Proposed Changes";
   comment_col_name].

(** An old submission with one row, and a new file with that row and a
    row of another id whose two cells are blank. *)
Definition sample_old : DataFrame := [mkRow "A" (Some "P1") None].

Definition sample_new : DataFrame :=
  [mkRow "A" (Some "P1") None; mkRow "B" None None].

(** The persisted sheet of [sample_new]: headers in row 1, the two data
    rows in rows 2 and 3; G3, H2 and H3 are blank. *)
Definition sample_ws : Worksheet :=
  mkWorksheet 8
    (list_to_map [((1, 1), "Object ID"); ((1, 7), "Proposed Changes");
                  ((1, 8), comment_col_name);
                  ((2, 1), "A"); ((2, 7), "P1"); ((3, 1), "B")]).

(** The same sheet when row 1 names neither of the two columns. *)
Definition sample_ws_no_headers : Worksheet :=
  mkWorksheet 7
    (list_to_map [((1, 1), "Object ID");
                  ((2, 1), "A"); ((2, 7), "P1"); ((3, 1), "B")]).

(** The lines L1 .. Ln. *)
Definition sample_lines (n : nat) : list string :=
  (λ i, "L" +:+ str_of_nat i) <$> seq 1 n.

(** A file with one row whose pattern cell holds L1 .. L25. *)
Definition sample_25 : DataFrame :=
  [mkRow "A" (Some (join_nl (sample_lines 25))) None].

(** ** The messages on the progress queue

    What [_process_removal] puts on [progress_queue], in order, on the
    paths that raise no exception. *)
Inductive QueueMsg :=
  | QStatus (text : string)
  | QMax (total_rows : nat)
  | QProgress (value : nat)
  | QResult (text : string)
  | QError (text : string).

(** The messages on which [_monitor_progress] stops polling. *)
Definition is_terminal (q : QueueMsg) : bool :=
  match q with
  | QResult _ | QError _ => true
  | _ => false
  end.

Definition to_queue (msg : Message) : QueueMsg :=
  match msg with
  | MsgError text => QError text
  | MsgResult text => QResult text
  end.

Definition process_messages (new_columns old_columns : list string)
    (old_df new_df : DataFrame) : list QueueMsg :=
  QStatus "Comparing files..."
  :: match locate_columns new_columns old_columns with
     | inl err => [QError err]
     | inr _ =>
         let st := remove_rows (old_patterns_map old_df) new_df in
         [QStatus "Processing old patterns..."; QMax (length new_df);
          QStatus "Removing patterns and comments..."]
         ++ imap (λ idx _, QProgress (idx + 1)) new_df
         ++ (if changes_made st
             then [QStatus "Saving changes to Excel file...";
                   QResult (result_message (removed_patterns st)
                                           (removed_comments st))]
             else [QResult no_changes_message])
     end.

(** The value of a ['progress'] message. *)
Definition progress_value (q : QueueMsg) : option nat :=
  match q with
  | QProgress value => Some value
  | _ => None
  end.

(** The total announced by a ['max'] message. *)
Definition max_value (q : QueueMsg) : option nat :=
  match q with
  | QMax total_rows => Some total_rows
  | _ => None
  end.

(** * Properties *)

(** ** Python strings *)
Module PyStrFacts.

#[local] Arguments String.append !_ _ : simpl nomatch.

Lemma nl_isspace : isspace nl = true.
Proof. reflexivity. Qed.

Lemma string_app_nil_r (s : string) : s +:+ "" = s.
Proof. induction s as [|x s IH]; simpl; [done|]. by rewrite IH. Qed.

Lemma string_app_assoc (a b c : string) : (a +:+ b) +:+ c = a +:+ b +:+ c.
Proof. induction a as [|x a IH]; simpl; [done|]. by rewrite IH. Qed.

(** *** [split] and [join] *)

Lemma split_nl_nonempty s : split_nl s ≠ [].
Proof.
  destruct s as [|c s]; simpl; [done|].
  destruct (decide (c = nl)); [done|]. by destruct (split_nl s).
Qed.

Lemma join_nl_cons l ls :
  ls ≠ [] → join_nl (l :: ls) = l +:+ String nl (join_nl ls).
Proof. by destruct ls. Qed.

Lemma join_split_nl s : join_nl (split_nl s) = s.
Proof.
  induction s as [|c s IH]; simpl; [done|].
  destruct (decide (c = nl)) as [->|Hc].
  - rewrite join_nl_cons by apply split_nl_nonempty. simpl. by rewrite IH.
  - pose proof (split_nl_nonempty s) as Hne.
    destruct (split_nl s) as [|l ls]; [done|].
    destruct ls as [|l' ls]; simpl in *; by rewrite IH.
Qed.

Lemma split_nl_no_nl s : Forall no_nl (split_nl s).
Proof.
  induction s as [|c s IH]; simpl.
  - by constructor.
  - destruct (decide (c = nl)); [by constructor|].
    destruct IH; constructor; simpl; auto.
Qed.

Lemma split_nl_no_nl_id s : no_nl s → split_nl s = [s].
Proof.
  induction s as [|c s IH]; simpl; [done|]. intros [Hc Hs].
  destruct (decide (c = nl)); [done|]. by rewrite IH.
Qed.

Lemma split_nl_app_nl l s :
  no_nl l → split_nl (l +:+ String nl s) = l :: split_nl s.
Proof.
  induction l as [|c l IH]; simpl.
  - intros _. by destruct (decide (nl = nl)).
  - intros [Hc Hl]. destruct (decide (c = nl)); [done|]. by rewrite IH.
Qed.

Lemma split_join_nl ls :
  ls ≠ [] → Forall no_nl ls → split_nl (join_nl ls) = ls.
Proof.
  induction ls as [|l ls IH]; [done|]. intros _ Hall.
  apply Forall_cons in Hall as [Hl Hls].
  destruct ls as [|l' ls].
  - simpl. by apply split_nl_no_nl_id.
  - rewrite join_nl_cons by done. rewrite split_nl_app_nl by done.
    by rewrite IH.
Qed.

(** *** [strip] *)

Lemma lstrip_no_nl s : no_nl s → no_nl (lstrip s).
Proof.
  induction s as [|c s IH]; simpl; [done|]. intros [Hc Hs].
  destruct (isspace c); simpl; auto.
Qed.

Lemma rstrip_no_nl s : no_nl s → no_nl (rstrip s).
Proof.
  induction s as [|c s IH]; simpl; [done|]. intros [Hc Hs].
  specialize (IH Hs). destruct (rstrip s); [|by simpl].
  by destruct (isspace c).
Qed.

Lemma strip_no_nl s : no_nl s → no_nl (strip s).
Proof. intros. by apply rstrip_no_nl, lstrip_no_nl. Qed.

Lemma lstrip_head s : head_nonspace (lstrip s).
Proof.
  induction s as [|c s IH]; simpl; [done|].
  destruct (isspace c) eqn:E; simpl; auto.
Qed.

Lemma lstrip_id s : head_nonspace s → lstrip s = s.
Proof. destruct s as [|c s]; simpl; [done|]. by intros ->. Qed.

Lemma rstrip_head s : head_nonspace s → head_nonspace (rstrip s).
Proof.
  destruct s as [|c s]; simpl; [done|]. intros Hc.
  rewrite Hc. by destruct (rstrip s).
Qed.

Lemma rstrip_idem s : rstrip (rstrip s) = rstrip s.
Proof.
  induction s as [|c s IH]; simpl; [done|].
  destruct (rstrip s) as [|c' r] eqn:E.
  - destruct (isspace c) eqn:Ec; simpl; [done|]. by rewrite Ec.
  - change (rstrip (String c (String c' r))) with
      (match rstrip (String c' r) with
       | "" => if isspace c then "" else String c ""
       | r0 => String c r0
       end).
    by rewrite IH.
Qed.

Lemma strip_idem s : strip (strip s) = strip s.
Proof.
  unfold strip.
  rewrite (lstrip_id (rstrip (lstrip s))); [apply rstrip_idem|].
  apply rstrip_head, lstrip_head.
Qed.

(** [lstrip] drops a prefix of whitespace only. *)
Lemma lstrip_decompose s :
  ∃ l, s = l +:+ lstrip s ∧ all_space l = true.
Proof.
  induction s as [|c s (l & Hl & Hsp)]; simpl.
  - by exists "".
  - destruct (isspace c) eqn:E.
    + exists (String c l). simpl. rewrite E, Hsp. split; [congruence|done].
    + by exists "".
Qed.

(** [rstrip] drops a suffix of whitespace only. *)
Lemma rstrip_decompose s :
  ∃ r, s = rstrip s +:+ r ∧ all_space r = true.
Proof.
  induction s as [|c s (r & Hr & Hsp)]; simpl.
  - by exists "".
  - destruct (rstrip s) as [|c' r'] eqn:E.
    + destruct (isspace c) eqn:Ec.
      * exists (String c r). simpl in *. rewrite Ec, Hsp.
        split; [congruence|done].
      * exists r. simpl in *. split; [congruence|done].
    + exists r. simpl in *. split; [congruence|done].
Qed.

Lemma rstrip_last s : last_nonspace (rstrip s).
Proof.
  induction s as [|c s IH]; simpl; [done|].
  destruct (rstrip s) as [|c' r] eqn:E.
  - destruct (isspace c) eqn:Ec; simpl; done.
  - done.
Qed.

(** [strip] removes whitespace at both ends and nothing else. *)
Lemma strip_decompose s :
  ∃ l r, s = l +:+ strip s +:+ r
         ∧ all_space l = true ∧ all_space r = true
         ∧ head_nonspace (strip s) ∧ last_nonspace (strip s).
Proof.
  destruct (lstrip_decompose s) as (l & Hl & Hlsp).
  destruct (rstrip_decompose (lstrip s)) as (r & Hr & Hrsp).
  exists l, r. unfold strip. repeat split; auto.
  - by rewrite <- Hr.
  - apply rstrip_head, lstrip_head.
  - apply rstrip_last.
Qed.

Lemma join_nl_snoc l x :
  l ≠ [] → join_nl (l ++ [x]) = join_nl l +:+ String nl x.
Proof.
  induction l as [|y l IH]; [done|]. intros _.
  destruct l as [|z l]; [reflexivity|].
  change (join_nl ((y :: z :: l) ++ [x]))
    with (y +:+ String nl (join_nl ((z :: l) ++ [x]))).
  rewrite IH by done. rewrite (join_nl_cons y (z :: l)) by done.
  rewrite string_app_assoc. reflexivity.
Qed.

End PyStrFacts.
Import PyStrFacts.

(** ** Line extraction *)

Lemma extract_lines_clean c : Forall clean_line (extract_lines c).
Proof.
  unfold extract_lines. apply Forall_fmap, Forall_forall.
  intros x [Hne Hin]%list_elem_of_filter. repeat split.
  - apply strip_idem.
  - done.
  - apply strip_no_nl.
    by apply (proj1 (Forall_forall _ _) (split_nl_no_nl (cell_str c))).
Qed.

Lemma clean_lines_fixed ls :
  Forall clean_line ls → strip <$> filter (λ line, strip line ≠ "") ls = ls.
Proof.
  induction 1 as [|l ls (Hs & Hne & _) _ IH]; [done|].
  rewrite filter_cons_True by (by rewrite Hs). csimpl. by rewrite Hs, IH.
Qed.

(** A cell holding the joined clean lines gives these lines back. *)
Lemma extract_lines_join ls :
  Forall clean_line ls → extract_lines (Some (join_nl ls)) = ls.
Proof.
  intros Hall. destruct (decide (ls = [])) as [->|Hne]; [done|].
  unfold extract_lines. simpl. rewrite split_join_nl; [|done|].
  - by apply clean_lines_fixed.
  - eapply Forall_impl; [exact Hall|]. by intros l (_ & _ & ?).
Qed.

(** ** The inner loop *)

Lemma filter_step_fold old_set idx lines filtered removed :
  fold_left (filter_step old_set idx) lines (filtered, removed)
  = (filtered ++ filter (λ l, l ∉ old_set) lines,
     removed ++ (removed_entry idx <$> filter (λ l, l ∈ old_set) lines)).
Proof.
  revert filtered removed.
  induction lines as [|l lines IH]; intros filtered removed; simpl.
  - by rewrite !app_nil_r.
  - destruct (decide (l ∈ old_set)) as [Hin|Hnin]; rewrite IH.
    + rewrite filter_cons_False by (intros ?; done).
      rewrite (filter_cons_True (λ l, l ∈ old_set)) by done.
      csimpl. by rewrite <- app_assoc.
    + rewrite filter_cons_True by done.
      rewrite (filter_cons_False (λ l, l ∈ old_set)) by done.
      by rewrite <- app_assoc.
Qed.

Lemma filter_loop_spec old_set idx removed lines :
  filter_loop old_set idx removed lines
  = (filter (λ l, l ∉ old_set) lines,
     removed ++ (removed_entry idx <$> filter (λ l, l ∈ old_set) lines)).
Proof. apply filter_step_fold. Qed.

(** ** Filtering a list *)
Section filter_facts.
Context {A : Type} (P : A → Prop) `{!∀ x, Decision (P x)}.

Lemma filter_all l : Forall P l → filter P l = l.
Proof.
  induction 1 as [|x l Hx _ IH]; [done|].
  by rewrite filter_cons_True, IH.
Qed.

Lemma filter_none l : Forall (λ x, ¬ P x) l → filter P l = [].
Proof.
  induction 1 as [|x l Hx _ IH]; [done|].
  by rewrite filter_cons_False.
Qed.

Lemma filter_holds l : Forall P (filter P l).
Proof. apply Forall_forall. by intros x [? _]%list_elem_of_filter. Qed.

Lemma filter_Forall (Q : A → Prop) l : Forall Q l → Forall Q (filter P l).
Proof.
  rewrite !Forall_forall. intros HQ x [_ Hx]%list_elem_of_filter. auto.
Qed.

Lemma filter_length_eq l : length (filter P l) = length l → filter P l = l.
Proof.
  induction l as [|x l IH]; [done|].
  destruct (decide (P x)) as [Hx|Hx].
  - rewrite filter_cons_True by done. simpl. intros [=]. f_equal. auto.
  - rewrite filter_cons_False by done. simpl. intros Hlen.
    pose proof (length_filter P l). lia.
Qed.
End filter_facts.

(** ** One iteration and the result of its row *)

Lemma remove_row_spec m st idx row :
  remove_row m st (idx, row)
  = mkState (write_cells m idx row (df st))
            (changes_made st || changed (reconcile_row m idx row))
            (removed_patterns st
             ++ removed_pattern_lines (reconcile_row m idx row))
            (removed_comments st
             ++ removed_comment_lines (reconcile_row m idx row)).
Proof.
  destruct st as [d cm rp rc].
  unfold remove_row, remove_patterns, remove_comments, write_cells,
    reconcile_row; simpl.
  destruct (m !! object_id row) as [e|]; simpl.
  - rewrite !filter_loop_spec; simpl.
    destruct (comments e) as [cs|]; simpl.
    + rewrite !filter_loop_spec; simpl.
      repeat case_decide; simpl; rewrite ?bool_decide_eq_true_2 by done;
        rewrite ?bool_decide_eq_false_2 by done; simpl;
        rewrite ?orb_true_r, ?orb_false_r, ?filter_loop_spec; try done.
    + repeat case_decide; simpl; rewrite ?bool_decide_eq_true_2 by done;
        rewrite ?bool_decide_eq_false_2 by done; simpl;
        rewrite ?orb_true_r, ?orb_false_r, ?app_nil_r; try done.
  - repeat case_decide; try done.
    rewrite bool_decide_eq_false_2 by (intros ?; done). simpl.
    by rewrite orb_false_r, !app_nil_r.
Qed.

Lemma write_cells_at m row pre suf :
  write_cells m (length pre) row (pre ++ row :: suf)
  = pre ++ updated_row m (length pre) row :: suf.
Proof.
  unfold write_cells, updated_row.
  set (r := reconcile_row m (length pre) row).
  assert (Hat : ∀ f (x : Row), alter f (length pre) (pre ++ x :: suf)
                               = pre ++ f x :: suf).
  { intros f x. replace (length pre) with (length pre + 0) by lia.
    by rewrite alter_app_r. }
  destruct row as [oid pt ct]; simpl.
  repeat case_decide; rewrite ?Hat; done.
Qed.

(** ** The loop over the rows *)

Lemma remove_rows_fold m suf : ∀ pre cm rp rc,
  fold_left (remove_row m) (imap (λ i, pair (length pre + i)) suf)
            (mkState (pre ++ suf) cm rp rc)
  = mkState
      (pre ++ imap (λ i, updated_row m (length pre + i)) suf)
      (cm || existsb changed
               (imap (λ i, reconcile_row m (length pre + i)) suf))
      (rp ++ concat (removed_pattern_lines
                     <$> imap (λ i, reconcile_row m (length pre + i)) suf))
      (rc ++ concat (removed_comment_lines
                     <$> imap (λ i, reconcile_row m (length pre + i)) suf)).
Proof.
  induction suf as [|row suf IH]; intros pre cm rp rc.
  - simpl. by rewrite orb_false_r, !app_nil_r.
  - assert (Hshift : ∀ {B} (f : nat → Row → B),
               imap ((λ i, f (length pre + i)) ∘ S) suf
               = imap (λ i, f (length (pre ++ [updated_row m (length pre) row])
                              + i)) suf).
    { intros B f. apply imap_ext. intros i x _. simpl.
      rewrite length_app. simpl. f_equal. lia. }
    rewrite !imap_cons, !Hshift, fmap_cons, fmap_cons.
    cbn [fold_left concat existsb].
    rewrite remove_row_spec.
    cbn [df changes_made removed_patterns removed_comments].
    rewrite Nat.add_0_r, write_cells_at.
    replace (pre ++ updated_row m (length pre) row :: suf)
      with ((pre ++ [updated_row m (length pre) row]) ++ suf)
      by (by rewrite <- app_assoc).
    rewrite IH. f_equal.
    + by rewrite <- !app_assoc.
    + by rewrite orb_assoc.
    + by rewrite <- app_assoc.
    + by rewrite <- app_assoc.
Qed.

(** The loop is the row-by-row result, put together. *)
Lemma remove_rows_spec m new_df :
  remove_rows m new_df
  = mkState (imap (updated_row m) new_df)
            (existsb changed (reconcile m new_df))
            (concat (removed_pattern_lines <$> reconcile m new_df))
            (concat (removed_comment_lines <$> reconcile m new_df)).
Proof.
  unfold remove_rows, reconcile.
  exact (remove_rows_fold m new_df [] false [] []).
Qed.

(** ** The result of one row, in closed form *)

Lemma reconcile_row_eq m idx row :
  reconcile_row m idx row
  = let ps := old_pattern_set m (object_id row) in
    let cs := old_comment_set m (object_id row) in
    let pl := extract_lines (pattern_text row) in
    let cl := extract_lines (comment_text row) in
    mkRowResult
      (filter (λ l, l ∉ ps) pl) (filter (λ l, l ∉ cs) cl)
      (removed_entry idx <$> filter (λ l, l ∈ ps) pl)
      (removed_entry idx <$> filter (λ l, l ∈ cs) cl)
      (bool_decide (length (filter (λ l, l ∉ ps) pl) ≠ length pl)
       || bool_decide (length (filter (λ l, l ∉ cs) cl) ≠ length cl)).
Proof.
  assert (Hkeep : ∀ (s : gset string) (l : list string),
             s = ∅ → filter (λ x, x ∉ s) l = l).
  { intros s l ->. apply filter_all, Forall_forall. intros x _. set_solver. }
  assert (Hdrop : ∀ (s : gset string) (l : list string),
             s = ∅ → filter (λ x, x ∈ s) l = []).
  { intros s l ->. apply filter_none, Forall_forall. intros x _. set_solver. }
  unfold reconcile_row, old_pattern_set, old_comment_set.
  destruct (m !! object_id row) as [e|];
    cbn [default from_option fmap option_fmap option_map mbind option_bind].
  - destruct (comments e) as [cs|]; rewrite !filter_loop_spec;
      cbn [fst snd app default from_option]; [done|].
    by rewrite !(Hkeep _ _ eq_refl), !(Hdrop _ _ eq_refl).
  - by rewrite !(Hkeep _ _ eq_refl), !(Hdrop _ _ eq_refl).
Qed.

Lemma updated_row_object_id m idx row :
  object_id (updated_row m idx row) = object_id row.
Proof. done. Qed.

(** After the iteration the pattern cell holds exactly the kept lines. *)
Lemma updated_row_pattern_lines m idx row :
  extract_lines (pattern_text (updated_row m idx row))
  = filtered_pattern_lines (reconcile_row m idx row).
Proof.
  unfold updated_row. rewrite reconcile_row_eq.
  cbn [filtered_pattern_lines filtered_comment_lines pattern_text
       comment_text].
  case_decide as Hlen.
  - apply extract_lines_join, filter_Forall, extract_lines_clean.
  - symmetry. apply filter_length_eq. lia.
Qed.

Lemma updated_row_comment_lines m idx row :
  extract_lines (comment_text (updated_row m idx row))
  = filtered_comment_lines (reconcile_row m idx row).
Proof.
  unfold updated_row. rewrite reconcile_row_eq.
  cbn [filtered_pattern_lines filtered_comment_lines pattern_text
       comment_text].
  case_decide as Hlen.
  - apply extract_lines_join, filter_Forall, extract_lines_clean.
  - symmetry. apply filter_length_eq. lia.
Qed.

(** A row whose cells hold the kept lines of [row] loses nothing in a
    further pass. *)
Lemma reconcile_row_kept m idx idx' row row' :
  object_id row' = object_id row →
  extract_lines (pattern_text row')
  = filtered_pattern_lines (reconcile_row m idx row) →
  extract_lines (comment_text row')
  = filtered_comment_lines (reconcile_row m idx row) →
  reconcile_row m idx' row'
  = mkRowResult (filtered_pattern_lines (reconcile_row m idx row))
                (filtered_comment_lines (reconcile_row m idx row))
                [] [] false.
Proof.
  intros Hid Hp Hc. rewrite (reconcile_row_eq m idx' row').
  rewrite Hid, Hp, Hc. rewrite (reconcile_row_eq m idx row). simpl.
  set (ps := old_pattern_set m (object_id row)).
  set (cs := old_comment_set m (object_id row)).
  rewrite !(filter_all (λ l, l ∉ _) (filter _ _)) by apply filter_holds.
  rewrite !(filter_none (λ l, l ∈ _) (filter _ _))
    by (eapply Forall_impl; [apply filter_holds|]; by intros x Hx).
  rewrite !bool_decide_eq_false_2 by (intros ?; done). done.
Qed.

(** A second pass over an updated row keeps every line. *)
Lemma reconcile_row_updated m idx idx' row :
  reconcile_row m idx' (updated_row m idx row)
  = mkRowResult (filtered_pattern_lines (reconcile_row m idx row))
                (filtered_comment_lines (reconcile_row m idx row))
                [] [] false.
Proof.
  apply reconcile_row_kept.
  - apply updated_row_object_id.
  - apply updated_row_pattern_lines.
  - apply updated_row_comment_lines.
Qed.

(** So does a second pass over the serialized row. *)
Lemma reconcile_row_serialized m idx idx' row :
  reconcile_row m idx' (serialized_row m idx row)
  = mkRowResult (filtered_pattern_lines (reconcile_row m idx row))
                (filtered_comment_lines (reconcile_row m idx row))
                [] [] false.
Proof.
  apply reconcile_row_kept; [done|..]; unfold serialized_row;
    cbn [pattern_text comment_text]; rewrite (reconcile_row_eq m idx row);
    cbn [filtered_pattern_lines filtered_comment_lines];
    apply extract_lines_join, filter_Forall, extract_lines_clean.
Qed.

(** ** A second pass over the data frame the loop leaves *)

Lemma updated_row_idem m idx row :
  updated_row m idx (updated_row m idx row) = updated_row m idx row.
Proof.
  unfold updated_row at 1. rewrite reconcile_row_updated.
  cbn [filtered_pattern_lines filtered_comment_lines].
  rewrite updated_row_pattern_lines, updated_row_comment_lines.
  rewrite !decide_False by (intros ?; done).
  by destruct (updated_row m idx row).
Qed.

Lemma second_pass_results m (new_df : DataFrame) :
  Forall (λ r, changed r = false ∧ removed_pattern_lines r = []
               ∧ removed_comment_lines r = [])
         (reconcile m (imap (updated_row m) new_df)).
Proof.
  apply Forall_forall. intros r Hr.
  apply list_elem_of_lookup in Hr as [i Hi].
  unfold reconcile in Hi. rewrite !list_lookup_imap in Hi.
  destruct (new_df !! i) as [row|]; [|done].
  injection Hi as <-. by rewrite reconcile_row_updated.
Qed.

Lemma no_removals_concat {A} (proj : RowResult → list A) rs :
  Forall (λ r, proj r = []) rs → concat (proj <$> rs) = [].
Proof. induction 1 as [|r rs Hr _ IH]; [done|]. csimpl. by rewrite Hr, IH. Qed.

Lemma no_changes_existsb rs :
  Forall (λ r, changed r = false) rs → existsb changed rs = false.
Proof. induction 1 as [|r rs Hr _ IH]; [done|]. simpl. by rewrite Hr, IH. Qed.

(** ** The index *)


Lemma index_patterns_step_ne m r k :
  object_id r ≠ k → index_patterns_step m r !! k = m !! k.
Proof. intros. unfold index_patterns_step. by rewrite lookup_insert_ne. Qed.

Lemma index_comments_step_eq m r :
  index_comments_step m r !! object_id r
  = Some (mkEntry (old_pattern_set m (object_id r))
                  (Some (list_to_set (extract_lines (comment_text r))))).
Proof.
  unfold index_comments_step, old_pattern_set.
  destruct (m !! object_id r) as [e|] eqn:He.
  - by rewrite lookup_alter_eq, He.
  - by rewrite lookup_alter_eq, lookup_insert_eq.
Qed.

Lemma index_comments_step_ne m r k :
  object_id r ≠ k → index_comments_step m r !! k = m !! k.
Proof.
  intros Hne. unfold index_comments_step.
  rewrite lookup_alter_ne by done.
  destruct (m !! object_id r); [done|]. by rewrite lookup_insert_ne.
Qed.

(** Rows of other ids leave the entry of [k] alone. *)
Lemma index_patterns_fold_other l : ∀ m k,
  k ∉ (object_id <$> l) →
  fold_left index_patterns_step l m !! k = m !! k.
Proof.
  induction l as [|r l IH]; intros m k Hk; [done|].
  rewrite fmap_cons, not_elem_of_cons in Hk. destruct Hk as [Hne Hk].
  simpl. rewrite IH by done. by apply index_patterns_step_ne.
Qed.

Lemma index_comments_fold_other l : ∀ m k,
  k ∉ (object_id <$> l) →
  fold_left index_comments_step l m !! k = m !! k.
Proof.
  induction l as [|r l IH]; intros m k Hk; [done|].
  rewrite fmap_cons, not_elem_of_cons in Hk. destruct Hk as [Hne Hk].
  simpl. rewrite IH by done. by apply index_comments_step_ne.
Qed.

(** The first loop only makes entries for ids of the old file. *)
Lemma index_patterns_fold_keys l : ∀ m k,
  is_Some (fold_left index_patterns_step l m !! k) →
  is_Some (m !! k) ∨ k ∈ (object_id <$> l).
Proof.
  intros m k. destruct (decide (k ∈ (object_id <$> l))) as [|Hk]; [by right|].
  rewrite index_patterns_fold_other by done. by left.
Qed.

(** The second loop keeps the pattern set of an entry. *)
Lemma index_comments_step_patterns m r k :
  is_Some (m !! k) →
  old_pattern_set (index_comments_step m r) k = old_pattern_set m k
  ∧ is_Some (index_comments_step m r !! k).
Proof.
  intros [e He]. destruct (decide (object_id r = k)) as [<-|Hne].
  - unfold old_pattern_set at 1. rewrite index_comments_step_eq. done.
  - unfold old_pattern_set. rewrite index_comments_step_ne by done.
    by rewrite He.
Qed.

Lemma index_comments_fold_patterns l : ∀ m k,
  is_Some (m !! k) →
  old_pattern_set (fold_left index_comments_step l m) k = old_pattern_set m k
  ∧ is_Some (fold_left index_comments_step l m !! k).
Proof.
  induction l as [|r l IH]; intros m k Hk; [done|]. simpl.
  destruct (index_comments_step_patterns m r k Hk) as [Hp Hs].
  destruct (IH _ k Hs) as [Hp' Hs']. split; [congruence|done].
Qed.

(** After the second loop an entry either has its comments, or belongs
    to an id the loop never met. *)
Lemma index_comments_fold_inv l : ∀ m k e,
  fold_left index_comments_step l m !! k = Some e →
  is_Some (comments e) ∨ ((k ∉ (object_id <$> l)) ∧ m !! k = Some e).
Proof.
  induction l as [|r l IH]; intros m k e He.
  - right. split; [|done]. apply not_elem_of_nil.
  - simpl in He. apply IH in He as [Hc|[Hk He]]; [by left|].
    destruct (decide (object_id r = k)) as [<-|Hne].
    + rewrite index_comments_step_eq in He. injection He as <-.
      left. by eexists.
    + rewrite index_comments_step_ne in He by done. right.
      split; [|done]. rewrite fmap_cons, not_elem_of_cons. by split.
Qed.

(** Every entry of the finished index has both keys. *)
Lemma old_patterns_map_comments old_df k e :
  old_patterns_map old_df !! k = Some e → is_Some (comments e).
Proof.
  unfold old_patterns_map.
  intros [Hc|[Hk He]]%index_comments_fold_inv; [done|].
  destruct (index_patterns_fold_keys old_df ∅ k) as [[? Hx]|Hin]; done.
Qed.

(** Every id of the old file has an entry. *)
Lemma old_patterns_map_indexed old_df k :
  k ∈ (object_id <$> old_df) → is_Some (old_patterns_map old_df !! k).
Proof.
  intros (r & -> & Hin)%list_elem_of_fmap.
  apply list_elem_of_split in Hin as (pre & post & ->).
  unfold old_patterns_map.
  rewrite (fold_left_app index_comments_step). simpl.
  apply index_comments_fold_patterns.
  rewrite index_comments_step_eq. by eexists.
Qed.

(** ** The write-back *)

Lemma cell_write_value ws r c v r' c' :
  cell_value (cell_write ws r c v) r' c'
  = if decide ((r, c) = (r', c')) then Some v else cell_value ws r' c'.
Proof.
  unfold cell_value, cell_write. simpl. case_decide as Heq.
  - rewrite Heq. apply lookup_insert_eq.
  - by apply lookup_insert_ne.
Qed.

(** Without a comment column the loop leaves every cell outside column 7
    of the data rows as it was. *)
Lemma write_rows_frame (l : list Row) : ∀ k ws r c,
  (c ≠ 7 ∨ r < k + 2 ∨ k + 2 + length l ≤ r)%nat →
  cell_value (fold_left (write_row None) (imap (λ i, pair (k + i)) l) ws) r c
  = cell_value ws r c.
Proof.
  induction l as [|x l IH]; intros k ws r c Hrc; [done|].
  rewrite imap_cons. cbn [fold_left].
  rewrite (imap_ext _ (λ i, pair (S k + i))) by (intros; simpl; f_equal; lia).
  rewrite IH by (simpl in Hrc; lia).
  unfold write_row. rewrite cell_write_value, decide_False; [done|].
  intros [= <- <-]. simpl in Hrc. lia.
Qed.

(** It writes column 7 of every data row. *)
Lemma write_rows_pattern (l : list Row) : ∀ k ws i row,
  l !! i = Some row →
  cell_value (fold_left (write_row None) (imap (λ i, pair (k + i)) l) ws)
             (k + i + 2) 7
  = Some (cell_str (pattern_text row)).
Proof.
  induction l as [|x l IH]; intros k ws i row Hi; [done|].
  rewrite imap_cons. cbn [fold_left].
  rewrite (imap_ext _ (λ i, pair (S k + i))) by (intros; simpl; f_equal; lia).
  destruct i as [|i]; simpl in Hi.
  - injection Hi as ->. rewrite write_rows_frame by lia.
    unfold write_row. rewrite cell_write_value, decide_True; [done|].
    f_equal; lia.
  - replace (k + S i + 2) with (S k + i + 2) by lia. by apply IH.
Qed.

(** ** The result message *)

(** The text of one category is its capped rendering, joined. *)
Lemma category_text removed rest :
  join_nl (take 20 removed) +:+ more_line removed +:+ rest
  = join_nl (render_category (summarize_category removed)) +:+ rest.
Proof.
  unfold more_line, summarize_category, render_category.
  case_decide as Hlen; cbn [rendered remainder].
  - rewrite join_nl_snoc.
    + change (String nl ?y) with (NL +:+ y). by rewrite !string_app_assoc.
    + destruct removed; [simpl in Hlen; lia|done].
  - rewrite app_nil_r, take_ge by lia. done.
Qed.

Lemma summarize_category_rendered removed :
  rendered (summarize_category removed) = take 20 removed
  ∧ (length (rendered (summarize_category removed)) ≤ 20)%nat
  ∧ remainder (summarize_category removed)
    = (if decide (20 < length removed)
       then Some (length removed - 20) else None).
Proof.
  unfold summarize_category. case_decide; cbn [rendered remainder].
  - rewrite length_take. repeat split; lia.
  - rewrite take_ge by lia. repeat split; lia.
Qed.

(** Every entry the loop reports has the form ["Row {idx+2}: {line}"]. *)
Lemma reported_entries m (new_df : DataFrame)
    (proj : RowResult → list string) :
  (∀ idx row, Forall (is_removed_entry (S idx))
                     (proj (reconcile_row m idx row))) →
  Forall (is_removed_entry (length new_df))
         (concat (proj <$> reconcile m new_df)).
Proof.
  intros Hproj. apply Forall_forall. intros s Hs.
  apply list_elem_of_In, in_concat in Hs as (l & Hl & Hs).
  apply list_elem_of_In, list_elem_of_fmap in Hl as (r & -> & Hr).
  apply list_elem_of_lookup in Hr as [i Hi].
  unfold reconcile in Hi. rewrite list_lookup_imap in Hi.
  destruct (new_df !! i) as [row|] eqn:Hrow; [|done].
  injection Hi as <-. apply list_elem_of_In in Hs.
  pose proof (proj1 (Forall_forall _ _) (Hproj i row) s Hs)
    as (idx & line & Hidx & ->).
  exists idx, line. split; [|done].
  apply lookup_lt_Some in Hrow. lia.
Qed.

Lemma removed_entries_format idx (lines : list string) :
  Forall (is_removed_entry (S idx)) (removed_entry idx <$> lines).
Proof.
  apply Forall_fmap, Forall_forall. intros line _.
  exists idx, line. split; [lia|done].
Qed.

(** ** One iteration inside the loop *)

(** The iteration for row [idx] leaves that row of the data frame as
    [updated_row] says, whatever the other rows are. *)
Lemma write_cells_lookup m idx row (d : DataFrame) :
  d !! idx = Some row →
  write_cells m idx row d !! idx = Some (updated_row m idx row).
Proof.
  intros Hd. pose proof (lookup_lt_Some _ _ _ Hd) as Hlt.
  assert (Hlen : idx = length (take idx d)) by (rewrite length_take; lia).
  rewrite <- (take_drop_middle d idx row Hd).
  generalize dependent (take idx d). intros pre ->.
  rewrite write_cells_at. by apply list_lookup_middle.
Qed.

(** A changed row makes the loop set [changes_made]. *)
Lemma changed_row_changes_made m (new_df : DataFrame) i row :
  new_df !! i = Some row →
  changed (reconcile_row m i row) = true →
  changes_made (remove_rows m new_df) = true.
Proof.
  intros Hi Hch. rewrite remove_rows_spec. cbn [changes_made].
  apply existsb_exists. exists (reconcile_row m i row). split; [|done].
  apply list_elem_of_In, list_elem_of_lookup. exists i.
  unfold reconcile. by rewrite list_lookup_imap, Hi.
Qed.

(** * The claims *)

(** C6. The line extractor is a total function of the cell.  For every
    cell, the blank one included, it returns the text split on newlines,
    every line trimmed and the lines that are empty after trimming
    discarded, in the original order; a blank cell has no lines and the
    text of scenario 4 gives the lines A and B. *)
Theorem extract_lines_spec (c : cell) :
  extract_lines c = extract_spec c
  ∧ extract_lines None = []
  ∧ extract_lines (Some ("  A  " +:+ NL +:+ NL +:+ "B")) = ["A"; "B"].
Proof.
  split; [|split; vm_compute; reflexivity].
  unfold extract_lines, extract_spec, cell_str.
  replace (match c with Some s => s | None => "" end) with (default "" c)
    by (by destruct c).
  induction (split_nl (default "" c)) as [|l ls IH]; [done|].
  rewrite fmap_cons. destruct (decide (strip l = "")) as [He|Hne].
  - rewrite filter_cons_False by (intros ?; done).
    rewrite (filter_cons_False _ (strip l)) by (intros ?; done). done.
  - rewrite filter_cons_True by done.
    rewrite (filter_cons_True _ (strip l)) by done.
    rewrite fmap_cons. by f_equal.
Qed.

(** C5. For a current row whose object id has an index entry, the kept
    pattern lines are exactly the extracted lines outside the entry's
    pattern set, in their original order, and the report entries are
    exactly the excluded lines, each tagged with the display row number
    (ordinal + 2).  The same holds for comment lines against the entry's
    comment set (an entry without the key is tested against nothing).
    The row counts as changed exactly when one of the two line counts
    went down.  This is what the iteration of the loop for that row
    does: it appends exactly these entries to the two report lists, sets
    [changes_made] when the row changed, and leaves the row in the data
    frame with exactly the kept lines in its two cells, a cell that lost
    a line holding the kept lines joined by newlines. *)
Theorem reconcile_row_indexed (m : gmap string Entry) (idx : nat) (row : Row)
    (e : Entry) (st : State) :
  m !! object_id row = Some e →
  df st !! idx = Some row →
  let r := reconcile_row m idx row in
  let pl := extract_lines (pattern_text row) in
  let cl := extract_lines (comment_text row) in
  let cs := default ∅ (comments e) in
  let st' := remove_row m st (idx, row) in
  filtered_pattern_lines r = filter (λ l, l ∉ patterns e) pl
  ∧ removed_pattern_lines r
    = (λ l, "Row " +:+ str_of_nat (idx + 2) +:+ ": " +:+ l)
      <$> filter (λ l, l ∈ patterns e) pl
  ∧ filtered_comment_lines r = filter (λ l, l ∉ cs) cl
  ∧ removed_comment_lines r
    = (λ l, "Row " +:+ str_of_nat (idx + 2) +:+ ": " +:+ l)
      <$> filter (λ l, l ∈ cs) cl
  ∧ filtered_pattern_lines r `sublist_of` pl
  ∧ filtered_comment_lines r `sublist_of` cl
  ∧ (changed r = true ↔
     length (filtered_pattern_lines r) ≠ length pl
     ∨ length (filtered_comment_lines r) ≠ length cl)
  ∧ removed_patterns st'
    = removed_patterns st
      ++ ((λ l, "Row " +:+ str_of_nat (idx + 2) +:+ ": " +:+ l)
          <$> filter (λ l, l ∈ patterns e) pl)
  ∧ removed_comments st'
    = removed_comments st
      ++ ((λ l, "Row " +:+ str_of_nat (idx + 2) +:+ ": " +:+ l)
          <$> filter (λ l, l ∈ cs) cl)
  ∧ changes_made st' = changes_made st || changed r
  ∧ ∃ row',
      df st' !! idx = Some row'
      ∧ object_id row' = object_id row
      ∧ extract_lines (pattern_text row') = filter (λ l, l ∉ patterns e) pl
      ∧ extract_lines (comment_text row') = filter (λ l, l ∉ cs) cl
      ∧ (length (filter (λ l, l ∉ patterns e) pl) ≠ length pl →
         pattern_text row'
         = Some (join_nl (filter (λ l, l ∉ patterns e) pl)))
      ∧ (length (filter (λ l, l ∉ cs) cl) ≠ length cl →
         comment_text row' = Some (join_nl (filter (λ l, l ∉ cs) cl))).
Proof.
  intros Hm Hdf r pl cl cs st'.
  assert (Hr : r = mkRowResult
                     (filter (λ l, l ∉ patterns e) pl)
                     (filter (λ l, l ∉ cs) cl)
                     (removed_entry idx <$> filter (λ l, l ∈ patterns e) pl)
                     (removed_entry idx <$> filter (λ l, l ∈ cs) cl)
                     (bool_decide (length (filter (λ l, l ∉ patterns e) pl)
                                   ≠ length pl)
                      || bool_decide (length (filter (λ l, l ∉ cs) cl)
                                      ≠ length cl))).
  { subst r pl cl cs. rewrite reconcile_row_eq.
    unfold old_pattern_set, old_comment_set. rewrite Hm. done. }
  assert (Hst : st' = mkState (write_cells m idx row (df st))
                              (changes_made st || changed r)
                              (removed_patterns st ++ removed_pattern_lines r)
                              (removed_comments st ++ removed_comment_lines r))
    by apply remove_row_spec.
  pose proof (updated_row_pattern_lines m idx row) as Hup.
  pose proof (updated_row_comment_lines m idx row) as Huc.
  fold r in Hup, Huc.
  rewrite Hst. cbn [df changes_made removed_patterns removed_comments].
  rewrite (write_cells_lookup _ _ _ _ Hdf).
  rewrite Hr in Hup, Huc |- *.
  cbn [filtered_pattern_lines filtered_comment_lines removed_pattern_lines
       removed_comment_lines changed] in Hup, Huc |- *.
  repeat split; try done; try apply sublist_filter.
  - intros [H|H]%orb_true_iff; apply bool_decide_eq_true_1 in H; auto.
  - intros [H|H]; apply orb_true_iff; [left|right];
      by apply bool_decide_eq_true_2.
  - exists (updated_row m idx row). repeat split; try done.
    + intros Hlen. unfold updated_row. fold r. rewrite Hr.
      cbn [filtered_pattern_lines pattern_text].
      by rewrite decide_True by done.
    + intros Hlen. unfold updated_row. fold r. rewrite Hr.
      cbn [filtered_comment_lines comment_text].
      by rewrite decide_True by done.
Qed.

Lemma reconcile_row_indexed_witness :
  old_patterns_map [mkRow "WCC-1" (Some ("A" +:+ NL +:+ "B")) None]
    !! "WCC-1"
  = Some (mkEntry (list_to_set ["A"; "B"]) (Some ∅))
  ∧ removed_patterns
      (remove_row
         (old_patterns_map [mkRow "WCC-1" (Some ("A" +:+ NL +:+ "B")) None])
         (mkState
            [mkRow "WCC-1" (Some ("A" +:+ NL +:+ "B" +:+ NL +:+ "C")) None]
            false [] [])
         (0, mkRow "WCC-1" (Some ("A" +:+ NL +:+ "B" +:+ NL +:+ "C")) None))
    = [] ++ ((λ l, "Row " +:+ str_of_nat (0 + 2) +:+ ": " +:+ l)
             <$> filter (λ l, l ∈ (list_to_set ["A"; "B"] : gset string))
                        (extract_lines
                           (Some ("A" +:+ NL +:+ "B" +:+ NL +:+ "C")))).
Proof.
  split; [vm_compute; reflexivity|].
  refine (proj1 (proj2 (proj2 (proj2 (proj2 (proj2 (proj2 (proj2
     (reconcile_row_indexed
        (old_patterns_map [mkRow "WCC-1" (Some ("A" +:+ NL +:+ "B")) None])
        0 (mkRow "WCC-1" (Some ("A" +:+ NL +:+ "B" +:+ NL +:+ "C")) None)
        (mkEntry (list_to_set ["A"; "B"]) (Some ∅))
        (mkState
           [mkRow "WCC-1" (Some ("A" +:+ NL +:+ "B" +:+ NL +:+ "C")) None]
           false [] [])
        _ _))))))))); vm_compute; reflexivity.
Defined.

(** Scenario 1: the old file has WCC-1 with lines A and B, the new file
    has WCC-1 with lines A, B and C.  The loop leaves C in the cell,
    reports A and B for display row 2 and sets [changes_made]. *)
Example scenario1 :
  reconcile_row
    (old_patterns_map [mkRow "WCC-1" (Some ("A" +:+ NL +:+ "B")) None])
    0 (mkRow "WCC-1" (Some ("A" +:+ NL +:+ "B" +:+ NL +:+ "C")) None)
  = mkRowResult ["C"] [] ["Row 2: A"; "Row 2: B"] [] true
  ∧ remove_rows
      (old_patterns_map [mkRow "WCC-1" (Some ("A" +:+ NL +:+ "B")) None])
      [mkRow "WCC-1" (Some ("A" +:+ NL +:+ "B" +:+ NL +:+ "C")) None]
    = mkState [mkRow "WCC-1" (Some "C") None] true
              ["Row 2: A"; "Row 2: B"] [].
Proof. split; vm_compute; reflexivity. Qed.

(** C7. A current row whose object id is absent from the index loses
    nothing: the kept lines are the extracted lines, nothing is reported,
    the row is unchanged, and the iteration leaves the whole loop state
    (data frame, report lists, [changes_made]) as it found it. *)
Theorem reconcile_row_unseen (m : gmap string Entry) (idx : nat) (row : Row)
    (st : State) :
  m !! object_id row = None →
  reconcile_row m idx row
  = mkRowResult (extract_lines (pattern_text row))
                (extract_lines (comment_text row)) [] [] false
  ∧ remove_row m st (idx, row) = st.
Proof.
  intros Hm. split.
  - unfold reconcile_row. rewrite Hm.
    cbn [mbind option_bind fst snd].
    by rewrite !bool_decide_eq_false_2 by (intros ?; done).
  - unfold remove_row, remove_patterns, remove_comments.
    cbn [fst snd]. by rewrite Hm.
Qed.

Lemma reconcile_row_unseen_witness :
  old_patterns_map [mkRow "WCC-1" (Some "A") None] !! "WCC-2" = None
  ∧ reconcile_row (old_patterns_map [mkRow "WCC-1" (Some "A") None]) 0
                  (mkRow "WCC-2" (Some "A") (Some "c"))
    = mkRowResult ["A"] ["c"] [] [] false
  ∧ remove_row (old_patterns_map [mkRow "WCC-1" (Some "A") None])
               (mkState [mkRow "WCC-2" (Some "A") (Some "c")] false [] [])
               (0, mkRow "WCC-2" (Some "A") (Some "c"))
    = mkState [mkRow "WCC-2" (Some "A") (Some "c")] false [] [].
Proof.
  split; [vm_compute; reflexivity|].
  apply (reconcile_row_unseen
           (old_patterns_map [mkRow "WCC-1" (Some "A") None]) 0
           (mkRow "WCC-2" (Some "A") (Some "c"))
           (mkState [mkRow "WCC-2" (Some "A") (Some "c")] false [] [])).
  vm_compute. reflexivity.
Defined.

(** C4. Reconciliation is idempotent.  Running the loop again on the data
    frame the first run leaves (a changed cell holds its kept lines
    joined by newlines, any other cell is as it was), against the same
    index, changes no row: every row result has [changed = false], no
    entry is reported, [changes_made] stays false and the data frame is
    the same.  The same holds when every cell, changed or not, holds its
    kept lines joined by newlines. *)
Theorem reconcile_idempotent (m : gmap string Entry) (new_df : DataFrame) :
  Forall (λ r, changed r = false) (reconcile m (df (remove_rows m new_df)))
  ∧ remove_rows m (df (remove_rows m new_df))
    = mkState (df (remove_rows m new_df)) false [] []
  ∧ Forall (λ r, changed r = false)
           (reconcile m (imap (serialized_row m) new_df)).
Proof.
  rewrite (remove_rows_spec m new_df). cbn [df].
  pose proof (second_pass_results m new_df) as Hall. split; [|split].
  - eapply Forall_impl; [exact Hall|]. by intros r (? & _).
  - rewrite remove_rows_spec. f_equal.
    + apply list_eq. intros i. rewrite !list_lookup_imap.
      destruct (new_df !! i) as [row|]; [|done].
      cbn [fmap option_fmap option_map]. by rewrite updated_row_idem.
    + apply no_changes_existsb.
      eapply Forall_impl; [exact Hall|]. by intros r (? & _).
    + apply no_removals_concat.
      eapply Forall_impl; [exact Hall|]. by intros r (_ & ? & _).
    + apply no_removals_concat.
      eapply Forall_impl; [exact Hall|]. by intros r (_ & _ & ?).
  - apply Forall_forall. intros r [i Hi]%list_elem_of_lookup.
    unfold reconcile in Hi. rewrite !list_lookup_imap in Hi.
    destruct (new_df !! i) as [row|]; [|done].
    injection Hi as <-. by rewrite reconcile_row_serialized.
Qed.

(** C9. No cross-contamination.  The result of a row, and the row as the
    loop leaves it in the data frame, depend only on the row itself, its
    ordinal and the index entry of its own object id: two runs that agree
    on these agree on the row, whatever the other rows and the other
    index entries are. *)
Theorem no_cross_contamination (m1 m2 : gmap string Entry)
    (df1 df2 : DataFrame) (i : nat) (row : Row) :
  df1 !! i = Some row →
  df2 !! i = Some row →
  m1 !! object_id row = m2 !! object_id row →
  reconcile m1 df1 !! i = reconcile m2 df2 !! i
  ∧ reconcile m1 df1 !! i = Some (reconcile_row m1 i row)
  ∧ df (remove_rows m1 df1) !! i = df (remove_rows m2 df2) !! i.
Proof.
  intros H1 H2 Hm.
  assert (Hrow : reconcile_row m1 i row = reconcile_row m2 i row).
  { unfold reconcile_row. by rewrite Hm. }
  rewrite !remove_rows_spec. cbn [df]. unfold reconcile.
  rewrite !list_lookup_imap, H1, H2.
  cbn [fmap option_fmap option_map].
  repeat split; [by rewrite Hrow|].
  unfold updated_row. by rewrite Hrow.
Qed.

Lemma no_cross_contamination_witness :
  reconcile (old_patterns_map [mkRow "B" (Some "x") None;
                               mkRow "A" (Some "x") None])
            [mkRow "B" (Some "x") None; mkRow "A" (Some "x") None] !! 0
  = reconcile (old_patterns_map [mkRow "A" (Some "y") None;
                                 mkRow "B" (Some "x") None])
              [mkRow "B" (Some "x") None] !! 0.
Proof.
  refine (proj1 (no_cross_contamination
            (old_patterns_map [mkRow "B" (Some "x") None;
                               mkRow "A" (Some "x") None])
            (old_patterns_map [mkRow "A" (Some "y") None;
                               mkRow "B" (Some "x") None])
            [mkRow "B" (Some "x") None; mkRow "A" (Some "x") None]
            [mkRow "B" (Some "x") None] 0 (mkRow "B" (Some "x") None)
            _ _ _)); vm_compute; reflexivity.
Defined.

(** A line removed for one object id stays in the rows of any other id:
    changing the entry of [k] leaves the result of a row of another id
    as it was. *)
Corollary other_id_unaffected (m : gmap string Entry) (k : string)
    (e : Entry) (idx : nat) (row : Row) :
  object_id row ≠ k →
  reconcile_row (<[k := e]> m) idx row = reconcile_row m idx row.
Proof.
  intros Hne. unfold reconcile_row. by rewrite lookup_insert_ne.
Qed.




(** C10. Once both loops over the old file have run, every entry of the
    index has a pattern set and a comment set.  So for a current row
    whose object id occurs in the old file, both halves of the guard of
    the comment block hold (the id has an entry, the entry has its
    comments) and the comment lines are filtered against that set. *)
Theorem comments_guard_indexed (old_df : DataFrame) (idx : nat) (row : Row) :
  object_id row ∈ (object_id <$> old_df) →
  (∀ k e, old_patterns_map old_df !! k = Some e → is_Some (comments e))
  ∧ ∃ e cs,
      old_patterns_map old_df !! object_id row = Some e
      ∧ comments e = Some cs
      ∧ filtered_comment_lines (reconcile_row (old_patterns_map old_df)
                                              idx row)
        = filter (λ l, l ∉ cs) (extract_lines (comment_text row))
      ∧ ∀ st, removed_comments
                (remove_comments (old_patterns_map old_df) idx row st)
              = removed_comments st
                ++ (removed_entry idx
                    <$> filter (λ l, l ∈ cs)
                               (extract_lines (comment_text row))).
Proof.
  intros Hin. split; [intros k e; apply old_patterns_map_comments|].
  destruct (old_patterns_map_indexed old_df _ Hin) as [e He].
  destruct (old_patterns_map_comments old_df _ e He) as [cs Hcs].
  exists e, cs. repeat split; try done.
  - rewrite reconcile_row_eq. unfold old_comment_set. rewrite He.
    cbn [mbind option_bind]. by rewrite Hcs.
  - intros st. unfold remove_comments. rewrite He, Hcs, filter_loop_spec.
    by case_decide.
Qed.

Lemma comments_guard_indexed_witness :
  "B" ∈ (object_id <$> [mkRow "A" (Some "p") (Some "c"); mkRow "B" None None])
  ∧ ∃ e cs,
      old_patterns_map [mkRow "A" (Some "p") (Some "c"); mkRow "B" None None]
        !! "B" = Some e
      ∧ comments e = Some cs.
Proof.
  assert (Hin : "B" ∈ (object_id <$> [mkRow "A" (Some "p") (Some "c");
                                      mkRow "B" None None])).
  { simpl. apply list_elem_of_further, list_elem_of_here. }
  split; [exact Hin|].
  destruct (proj2 (comments_guard_indexed
                     [mkRow "A" (Some "p") (Some "c"); mkRow "B" None None]
                     0 (mkRow "B" (Some "x") (Some "y")) Hin))
    as (e & cs & He & Hcs & _).
  by exists e, cs.
Defined.

(** C2, the code at a failing input.  The old file has the row A with the
    line P1; the new file has that row and a row B with blank cells.  Row
    B is unchanged, yet the write-back loop runs over every row of the
    data frame: the blank cells G3 and H3 of the persisted sheet come out
    holding the empty string. *)
Example writer_rewrites_unchanged_row :
  changed <$> (reconcile (old_patterns_map sample_old) sample_new !! 1)
  = Some false
  ∧ cell_value sample_ws 3 7 = None
  ∧ cell_value sample_ws 3 8 = None
  ∧ cell_value (process_removal sample_columns sample_columns
                                sample_old sample_new sample_ws).2 3 7
    = Some ""
  ∧ cell_value (process_removal sample_columns sample_columns
                                sample_old sample_new sample_ws).2 3 8
    = Some "".
Proof. repeat split; vm_compute; reflexivity. Qed.

(** C3, counterexample.  Row 1 of the persisted sheet names neither the
    pattern column nor the comment column.  The run ends with a result
    message, not an error, and the sheet has been written: G2 held P1 and
    now holds the empty string. *)
Lemma schema_mismatch_not_raised :
  find_comment_col sample_ws_no_headers = None
  ∧ is_error (process_removal sample_columns sample_columns sample_old
                              sample_new sample_ws_no_headers).1.1
    = false
  ∧ cell_value sample_ws_no_headers 2 7 = Some "P1"
  ∧ cell_value (process_removal sample_columns sample_columns sample_old
                                sample_new sample_ws_no_headers).2 2 7
    = Some "".
Proof. repeat split; vm_compute; reflexivity. Qed.

(** C3, amended.  The writer looks up no header for the pattern column
    (it is column 7 by position), and a comment column whose header is
    not in row 1 of the persisted sheet raises nothing: when the column
    checks on the data frames pass, the run ends with a result message,
    not an error; for every row with [changed = true] the pattern text
    the data frame holds for the row is in column 7 of its sheet row
    (ordinal + 2); the comment column is skipped, and no cell outside
    column 7 of the data rows is modified. *)
Theorem missing_comment_header_skipped (new_columns old_columns : list string)
    (old_df new_df : DataFrame) (ws : Worksheet) (comment_col i : nat)
    (row : Row) :
  locate_columns new_columns old_columns = inr comment_col →
  find_comment_col ws = None →
  new_df !! i = Some row →
  changed (reconcile_row (old_patterns_map old_df) i row) = true →
  let out := process_removal new_columns old_columns old_df new_df ws in
  is_error out.1.1 = false
  ∧ (∃ row', out.1.2 !! i = Some row'
             ∧ cell_value out.2 (i + 2) 7
               = Some (cell_str (pattern_text row')))
  ∧ (∀ r c, (c ≠ 7 ∨ r < 2 ∨ length new_df + 2 ≤ r)%nat →
            cell_value out.2 r c = cell_value ws r c).
Proof.
  intros Hcols Hfind Hi Hrow out. subst out. unfold process_removal.
  rewrite Hcols, (changed_row_changes_made _ _ _ _ Hi Hrow).
  cbn [fst snd is_error]. unfold write_back.
  rewrite Hfind. split; [done|]. split.
  - exists (updated_row (old_patterns_map old_df) i row).
    assert (Hi' : df (remove_rows (old_patterns_map old_df) new_df) !! i
                  = Some (updated_row (old_patterns_map old_df) i row)).
    { rewrite remove_rows_spec. cbn [df]. by rewrite list_lookup_imap, Hi. }
    split; [done|]. by apply (write_rows_pattern _ 0 ws i _).
  - intros r c Hrc.
    apply (write_rows_frame _ 0 ws r c).
    rewrite remove_rows_spec. cbn [df]. rewrite length_imap. lia.
Qed.

Lemma missing_comment_header_skipped_witness :
  is_error (process_removal sample_columns sample_columns sample_old
                            sample_new sample_ws_no_headers).1.1
  = false
  ∧ ∃ row',
      (process_removal sample_columns sample_columns sample_old
                       sample_new sample_ws_no_headers).1.2 !! 0
      = Some row'
      ∧ cell_value (process_removal sample_columns sample_columns sample_old
                                    sample_new sample_ws_no_headers).2
                   (0 + 2) 7
        = Some (cell_str (pattern_text row')).
Proof.
  destruct (missing_comment_header_skipped
              sample_columns sample_columns sample_old sample_new
              sample_ws_no_headers 7 0 (mkRow "A" (Some "P1") None))
    as (Hmsg & Hcell & _); try (vm_compute; reflexivity).
  split; [exact Hmsg|exact Hcell].
Defined.

(** C8. The result message shows, for each of the two categories, at most
    20 entries, each of the form "Row {display_row}: {line}": the text
    of a category is its entries capped at the first 20, followed, when
    more than 20 exist, by a line with the count of the remainder (the
    total minus 20), which is what marks the summary as truncated. *)
Theorem result_message_capped (m : gmap string Entry) (new_df : DataFrame) :
  let rp := removed_patterns (remove_rows m new_df) in
  let rc := removed_comments (remove_rows m new_df) in
  result_message rp rc
  = "Successfully removed " +:+ str_of_nat (length rp)
    +:+ " previously submitted patterns and " +:+ str_of_nat (length rc)
    +:+ " previously submitted comments." +:+ NL +:+ NL
    +:+ "Removed patterns:" +:+ NL
    +:+ join_nl (render_category (summarize_category rp))
    +:+ NL +:+ NL +:+ "Removed comments:" +:+ NL
    +:+ join_nl (render_category (summarize_category rc))
  ∧ Forall (is_removed_entry (length new_df)) rp
  ∧ Forall (is_removed_entry (length new_df)) rc
  ∧ rendered (summarize_category rp) = take 20 rp
  ∧ rendered (summarize_category rc) = take 20 rc
  ∧ (length (rendered (summarize_category rp)) ≤ 20)%nat
  ∧ (length (rendered (summarize_category rc)) ≤ 20)%nat
  ∧ remainder (summarize_category rp)
    = (if decide (20 < length rp) then Some (length rp - 20) else None)
  ∧ remainder (summarize_category rc)
    = (if decide (20 < length rc) then Some (length rc - 20) else None).
Proof.
  intros rp rc.
  destruct (summarize_category_rendered rp) as (Hp1 & Hp2 & Hp3).
  destruct (summarize_category_rendered rc) as (Hc1 & Hc2 & Hc3).
  repeat split; try done.
  - unfold result_message. do 9 f_equal.
    rewrite category_text. do 5 f_equal.
    rewrite <- (string_app_nil_r (more_line rc)), category_text.
    apply string_app_nil_r.
  - subst rp. rewrite remove_rows_spec. cbn [removed_patterns].
    apply reported_entries. intros idx row. rewrite reconcile_row_eq.
    apply removed_entries_format.
  - subst rc. rewrite remove_rows_spec. cbn [removed_comments].
    apply reported_entries. intros idx row. rewrite reconcile_row_eq.
    apply removed_entries_format.
Qed.

(** Scenario 5: 25 removals give exactly 20 rendered entries, a remainder
    of 5 and a truncated summary, whose last line says so. *)
Example scenario5 :
  length (removed_patterns (remove_rows (old_patterns_map sample_25)
                                        sample_25)) = 25
  ∧ length (rendered (summarize_category
              (removed_patterns (remove_rows (old_patterns_map sample_25)
                                             sample_25)))) = 20
  ∧ remainder (summarize_category
       (removed_patterns (remove_rows (old_patterns_map sample_25)
                                      sample_25))) = Some 5
  ∧ truncated (summarize_category
       (removed_patterns (remove_rows (old_patterns_map sample_25)
                                      sample_25))) = true
  ∧ last (render_category (summarize_category
       (removed_patterns (remove_rows (old_patterns_map sample_25)
                                      sample_25))))
    = Some "... and 5 more"
  ∧ head (removed_patterns (remove_rows (old_patterns_map sample_25)
                                        sample_25))
    = Some "Row 2: L1".
Proof. repeat split; vm_compute; reflexivity. Qed.


(** * Further properties of the code *)

(** ** Helper facts *)
Section filter_split.
Context {A : Type} (P : A → Prop) `{!∀ x, Decision (P x)}.

Lemma filter_length_split l :
  length (filter (λ x, ¬ P x) l) + length (filter P l) = length l.
Proof.
  induction l as [|x l IH]; [done|].
  destruct (decide (P x)) as [Hx|Hx].
  - rewrite filter_cons_False by (intros Hn; by apply Hn).
    rewrite (filter_cons_True P) by done. simpl. lia.
  - rewrite filter_cons_True by done.
    rewrite (filter_cons_False P) by done. simpl. lia.
Qed.

Lemma filter_shrinks_iff l :
  length (filter (λ x, ¬ P x) l) ≠ length l ↔ filter P l ≠ [].
Proof.
  pose proof (filter_length_split l) as Hsplit.
  destruct (filter P l) as [|y ys] eqn:E; simpl in Hsplit.
  - split; [lia|done].
  - split; [done|lia].
Qed.
End filter_split.

Lemma reconcile_row_changed_iff m idx row :
  changed (reconcile_row m idx row) = true
  ↔ removed_pattern_lines (reconcile_row m idx row) ≠ []
    ∨ removed_comment_lines (reconcile_row m idx row) ≠ [].
Proof.
  rewrite reconcile_row_eq.
  cbn [changed removed_pattern_lines removed_comment_lines].
  rewrite orb_true_iff, !bool_decide_eq_true.
  rewrite !(filter_shrinks_iff (λ l, l ∈ _)).
  split; (intros [H|H]; [left|right]); intros Hnil.
  - apply fmap_nil_inv in Hnil. done.
  - apply fmap_nil_inv in Hnil. done.
  - apply H. by rewrite Hnil.
  - apply H. by rewrite Hnil.
Qed.

Lemma updated_row_unchanged m idx row :
  changed (reconcile_row m idx row) = false → updated_row m idx row = row.
Proof.
  unfold updated_row, reconcile_row.
  cbn [changed filtered_pattern_lines filtered_comment_lines].
  intros [Hp Hc]%orb_false_iff.
  apply bool_decide_eq_false in Hp, Hc.
  rewrite !decide_False by done. by destruct row.
Qed.

Lemma existsb_changed_false (rs : list RowResult) :
  existsb changed rs = false → Forall (λ r, changed r = false) rs.
Proof.
  induction rs as [|r rs IH]; [by constructor|]. simpl.
  intros [? ?]%orb_false_iff. constructor; auto.
Qed.

Lemma remove_rows_no_changes m (new_df : DataFrame) :
  changes_made (remove_rows m new_df) = false →
  df (remove_rows m new_df) = new_df.
Proof.
  rewrite remove_rows_spec. cbn [changes_made df].
  intros Hall%existsb_changed_false. apply list_eq. intros i.
  rewrite list_lookup_imap. destruct (new_df !! i) as [row|] eqn:Hi; [|done].
  cbn [fmap option_fmap option_map]. f_equal.
  apply updated_row_unchanged.
  apply (proj1 (Forall_forall _ _) Hall).
  apply list_elem_of_lookup. exists i. unfold reconcile.
  by rewrite list_lookup_imap, Hi.
Qed.

Lemma get_loc_Some name (columns : list string) i :
  get_loc name columns = Some i →
  columns !! i = Some name
  ∧ i < length columns
  ∧ ∀ j, j < i → columns !! j ≠ Some name.
Proof.
  revert i. induction columns as [|c columns IH]; intros i; simpl; [done|].
  destruct (decide (c = name)) as [->|Hne].
  - intros [= <-]. simpl. repeat split; [lia|]. intros j Hj. lia.
  - destruct (get_loc name columns) as [i'|]; [|done].
    cbn [fmap option_fmap option_map]. intros [= <-].
    destruct (IH i' eq_refl) as (Hi & Hlt & Hfirst).
    repeat split; [done|simpl; lia|].
    intros [|j] Hj; simpl; [congruence|]. apply Hfirst. lia.
Qed.

Lemma get_loc_None name (columns : list string) :
  get_loc name columns = None ↔ name ∉ columns.
Proof.
  induction columns as [|c columns IH]; simpl.
  - split; [intros _; apply not_elem_of_nil|done].
  - rewrite not_elem_of_cons. destruct (decide (c = name)) as [->|Hne].
    + split; [done|]. by intros [? _].
    + destruct (get_loc name columns) as [i|];
        cbn [fmap option_fmap option_map].
      * split; [done|]. intros [_ Hn]. by apply IH in Hn.
      * split; [|done]. intros _. split; [congruence|]. by apply IH.
Qed.

(** X1. When the column checks pass, the position they return is that of
    the first column of the new file named "Contractor Proposed Change
    Comment Input", both files have a column 6, and the old file has a
    column at the comment position. *)
Theorem locate_columns_ok (new_columns old_columns : list string)
    (comment_col : nat) :
  locate_columns new_columns old_columns = inr comment_col →
  new_columns !! comment_col = Some comment_col_name
  ∧ (∀ j, j < comment_col → new_columns !! j ≠ Some comment_col_name)
  ∧ proposed_changes_col < length new_columns
  ∧ proposed_changes_col < length old_columns
  ∧ comment_col < length old_columns.
Proof.
  unfold locate_columns.
  destruct (get_loc comment_col_name new_columns) as [c|] eqn:Hloc; [|done].
  destruct (get_loc_Some _ _ _ Hloc) as (Hc & Hlt & Hfirst).
  repeat case_decide; try done. intros [= <-].
  repeat split; try done; lia.
Qed.

Lemma locate_columns_ok_witness :
  sample_columns !! 7 = Some comment_col_name.
Proof.
  refine (proj1 (locate_columns_ok sample_columns sample_columns 7 _)).
  vm_compute. reflexivity.
Defined.

(** X2. A new file that has the comment column and at least seven
    columns passes the column checks against any old file that is at
    least as wide: no error is reported. *)
Theorem locate_columns_passes (new_columns old_columns : list string) :
  comment_col_name ∈ new_columns →
  (7 ≤ length new_columns)%nat →
  (length new_columns ≤ length old_columns)%nat →
  ∃ comment_col, locate_columns new_columns old_columns = inr comment_col.
Proof.
  intros Hin Hnew Hold. unfold locate_columns.
  destruct (get_loc comment_col_name new_columns) as [c|] eqn:Hloc.
  - destruct (get_loc_Some _ _ _ Hloc) as (_ & Hlt & _).
    unfold proposed_changes_col.
    rewrite !decide_False by lia. by exists c.
  - apply get_loc_None in Hloc. done.
Qed.

Lemma locate_columns_passes_witness :
  ∃ comment_col, locate_columns sample_columns sample_columns = inr comment_col.
Proof.
  apply (locate_columns_passes sample_columns sample_columns).
  - vm_compute. do 7 apply list_elem_of_further. apply list_elem_of_here.
  - vm_compute. lia.
  - vm_compute. lia.
Defined.

(** X3. The column checks never report that the comment column is out of
    range in the new file: the position comes from the new file's own
    labels, so the check of line 175 cannot fire. *)
Theorem locate_columns_never_new_range (new_columns old_columns : list string) :
  locate_columns new_columns old_columns
  ≠ inl ("'" +:+ comment_col_name +:+ "' column not found in new file.").
Proof.
  unfold locate_columns.
  destruct (get_loc comment_col_name new_columns) as [c|] eqn:Hloc.
  - destruct (get_loc_Some _ _ _ Hloc) as (_ & Hlt & _).
    repeat case_decide; try lia; try done; vm_compute; discriminate.
  - vm_compute. discriminate.
Qed.

(** X4. The removal loop keeps the shape of the data frame: the number
    of rows and the object id of every row are as before. *)
Theorem remove_rows_shape (m : gmap string Entry) (new_df : DataFrame) :
  length (df (remove_rows m new_df)) = length new_df
  ∧ object_id <$> df (remove_rows m new_df) = object_id <$> new_df.
Proof.
  rewrite remove_rows_spec. cbn [df]. split; [apply length_imap|].
  apply list_eq. intros i. rewrite !list_lookup_fmap, list_lookup_imap.
  by destruct (new_df !! i).
Qed.

(** X5. After the removal loop the lines of every cell of the data frame
    are exactly the lines it had that are not in the old set of the
    row's object id, in their order: nothing else is dropped and nothing
    of the old set stays. *)
Theorem remove_rows_cells (m : gmap string Entry) (new_df : DataFrame)
    (i : nat) (row : Row) :
  new_df !! i = Some row →
  ∃ row', df (remove_rows m new_df) !! i = Some row'
    ∧ extract_lines (pattern_text row')
      = filter (λ l, l ∉ old_pattern_set m (object_id row))
               (extract_lines (pattern_text row))
    ∧ extract_lines (comment_text row')
      = filter (λ l, l ∉ old_comment_set m (object_id row))
               (extract_lines (comment_text row)).
Proof.
  intros Hi. exists (updated_row m i row).
  rewrite remove_rows_spec. cbn [df]. rewrite list_lookup_imap, Hi.
  split; [done|].
  rewrite updated_row_pattern_lines, updated_row_comment_lines.
  by rewrite reconcile_row_eq.
Qed.

Lemma remove_rows_cells_witness :
  ∃ row', df (remove_rows (old_patterns_map sample_old) sample_new) !! 0
          = Some row'
    ∧ extract_lines (pattern_text row')
      = filter (λ l, l ∉ old_pattern_set (old_patterns_map sample_old) "A")
               (extract_lines (Some "P1"))
    ∧ extract_lines (comment_text row')
      = filter (λ l, l ∉ old_comment_set (old_patterns_map sample_old) "A")
               (extract_lines None).
Proof.
  apply (remove_rows_cells (old_patterns_map sample_old) sample_new 0
                           (mkRow "A" (Some "P1") None)).
  reflexivity.
Defined.

(** X6. A cell none of whose lines is in the old set is left verbatim,
    blank lines and surrounding whitespace included: the loop rewrites a
    cell only when it removes a line from it. *)
Theorem untouched_cell_verbatim (m : gmap string Entry) (new_df : DataFrame)
    (i : nat) (row : Row) :
  new_df !! i = Some row →
  (Forall (λ l, l ∉ old_pattern_set m (object_id row))
          (extract_lines (pattern_text row)) →
   pattern_text <$> df (remove_rows m new_df) !! i = Some (pattern_text row))
  ∧ (Forall (λ l, l ∉ old_comment_set m (object_id row))
            (extract_lines (comment_text row)) →
     comment_text <$> df (remove_rows m new_df) !! i
     = Some (comment_text row)).
Proof.
  intros Hi. rewrite remove_rows_spec. cbn [df].
  rewrite list_lookup_imap, Hi. cbn [fmap option_fmap option_map].
  unfold updated_row. rewrite reconcile_row_eq.
  cbn [filtered_pattern_lines filtered_comment_lines pattern_text
       comment_text].
  split; intros Hall; rewrite (filter_all _ _ Hall);
    by rewrite decide_False by (intros ?; done).
Qed.

Lemma untouched_cell_verbatim_witness :
  pattern_text
    <$> df (remove_rows (old_patterns_map sample_old)
              [mkRow "A" (Some ("  P2  " +:+ NL +:+ NL)) None]) !! 0
  = Some (Some ("  P2  " +:+ NL +:+ NL)).
Proof.
  refine (proj1 (untouched_cell_verbatim (old_patterns_map sample_old)
                   [mkRow "A" (Some ("  P2  " +:+ NL +:+ NL)) None] 0
                   (mkRow "A" (Some ("  P2  " +:+ NL +:+ NL)) None) _) _).
  - reflexivity.
  - vm_compute. constructor; [|constructor].
    intros H. vm_compute in H. discriminate.
Defined.

Lemma existsb_changed_iff (rs : list RowResult) :
  (∀ r, r ∈ rs →
        changed r = true
        ↔ removed_pattern_lines r ≠ [] ∨ removed_comment_lines r ≠ []) →
  existsb changed rs = true
  ↔ concat (removed_pattern_lines <$> rs) ≠ []
    ∨ concat (removed_comment_lines <$> rs) ≠ [].
Proof.
  induction rs as [|r rs IH]; intros Hrs.
  - simpl. split; [done|]. by intros [?|?].
  - rewrite !fmap_cons. cbn [existsb concat]. rewrite orb_true_iff.
    rewrite (Hrs r) by apply list_elem_of_here.
    rewrite IH by (intros r' Hr'; apply Hrs; by apply list_elem_of_further).
    assert (Happ : ∀ l l' : list string, l ++ l' ≠ [] ↔ l ≠ [] ∨ l' ≠ []).
    { intros [|x l] l'; simpl; split; try tauto; try done. by left. }
    rewrite !Happ. tauto.
Qed.

(** X7. The loop sets [changes_made] exactly when it reports something:
    the flag is true if and only if one of the two report lists is not
    empty.  So the "no ... found to remove" message is shown exactly
    when no line was removed. *)
Theorem changes_made_iff_reported (m : gmap string Entry)
    (new_df : DataFrame) :
  changes_made (remove_rows m new_df) = true
  ↔ removed_patterns (remove_rows m new_df) ≠ []
    ∨ removed_comments (remove_rows m new_df) ≠ [].
Proof.
  rewrite remove_rows_spec.
  cbn [changes_made removed_patterns removed_comments].
  apply existsb_changed_iff. intros r [i Hi]%list_elem_of_lookup.
  unfold reconcile in Hi. rewrite list_lookup_imap in Hi.
  destruct (new_df !! i) as [row|]; [|done]. injection Hi as <-.
  apply reconcile_row_changed_iff.
Qed.

Lemma reconcile_row_lines_accounted m idx row :
  length (removed_pattern_lines (reconcile_row m idx row))
  + length (extract_lines (pattern_text (updated_row m idx row)))
  = length (extract_lines (pattern_text row))
  ∧ length (removed_comment_lines (reconcile_row m idx row))
    + length (extract_lines (comment_text (updated_row m idx row)))
    = length (extract_lines (comment_text row)).
Proof.
  rewrite updated_row_pattern_lines, updated_row_comment_lines.
  rewrite reconcile_row_eq.
  cbn [filtered_pattern_lines filtered_comment_lines removed_pattern_lines
       removed_comment_lines].
  rewrite !length_fmap.
  split; rewrite Nat.add_comm; apply (filter_length_split (λ l, l ∈ _)).
Qed.

Lemma lines_accounted_fold m (l : list Row) : ∀ k,
  length (concat (removed_pattern_lines
                  <$> imap (λ i, reconcile_row m (k + i)) l))
  + sum_list ((λ r, length (extract_lines (pattern_text r)))
              <$> imap (λ i, updated_row m (k + i)) l)
  = sum_list ((λ r, length (extract_lines (pattern_text r))) <$> l)
  ∧ length (concat (removed_comment_lines
                    <$> imap (λ i, reconcile_row m (k + i)) l))
    + sum_list ((λ r, length (extract_lines (comment_text r)))
                <$> imap (λ i, updated_row m (k + i)) l)
    = sum_list ((λ r, length (extract_lines (comment_text r))) <$> l).
Proof.
  induction l as [|row l IH]; intros k; [done|].
  rewrite !imap_cons.
  rewrite (imap_ext _ (λ i, reconcile_row m (S k + i)))
    by (intros; simpl; f_equal; lia).
  rewrite (imap_ext ((λ i, updated_row m (k + i)) ∘ S)
                    (λ i, updated_row m (S k + i)))
    by (intros; simpl; f_equal; lia).
  assert (Hsum : ∀ x (xs : list nat), sum_list (x :: xs) = x + sum_list xs)
    by done.
  rewrite !fmap_cons, !Hsum. cbn [concat].
  rewrite !length_app.
  destruct (IH (S k)) as [IHp IHc].
  destruct (reconcile_row_lines_accounted m (k + 0) row) as [Hp Hc].
  split; lia.
Qed.

(** X8. Every line of the data frame is accounted for by the loop: the
    number of entries in a report list plus the number of lines left in
    the cells of that column after the loop is the number of lines the
    cells of the column had before, for the pattern column and for the
    comment column. *)
Theorem lines_accounted (m : gmap string Entry) (new_df : DataFrame) :
  length (removed_patterns (remove_rows m new_df))
  + sum_list ((λ r, length (extract_lines (pattern_text r)))
              <$> df (remove_rows m new_df))
  = sum_list ((λ r, length (extract_lines (pattern_text r))) <$> new_df)
  ∧ length (removed_comments (remove_rows m new_df))
    + sum_list ((λ r, length (extract_lines (comment_text r)))
                <$> df (remove_rows m new_df))
    = sum_list ((λ r, length (extract_lines (comment_text r))) <$> new_df).
Proof.
  rewrite remove_rows_spec. cbn [df removed_patterns removed_comments].
  exact (lines_accounted_fold m new_df 0).
Qed.

(** X9. When nothing is removed, the run ends with the "no ... found to
    remove" message, the pattern cells and the comment cells of the data
    frame in memory are the ones that were loaded, and the persisted
    sheet is not written.  (Column 0 is another matter: line 184 has
    rewritten it as text by then.) *)
Theorem no_changes_leaves_cells (new_columns old_columns : list string)
    (old_df new_df : DataFrame) (ws : Worksheet) (comment_col : nat) :
  locate_columns new_columns old_columns = inr comment_col →
  changes_made (remove_rows (old_patterns_map old_df) new_df) = false →
  let out := process_removal new_columns old_columns old_df new_df ws in
  out.1.1 = MsgResult no_changes_message
  ∧ pattern_text <$> out.1.2 = pattern_text <$> new_df
  ∧ comment_text <$> out.1.2 = comment_text <$> new_df
  ∧ out.2 = ws.
Proof.
  intros Hcols Hch out. subst out. unfold process_removal.
  rewrite Hcols, Hch. cbn [fst snd].
  by rewrite remove_rows_no_changes.
Qed.

Lemma no_changes_leaves_cells_witness :
  (process_removal sample_columns sample_columns sample_old
                   [mkRow "A" (Some "P2") None] sample_ws).1.1
  = MsgResult no_changes_message
  ∧ pattern_text
    <$> (process_removal sample_columns sample_columns sample_old
                         [mkRow "A" (Some "P2") None] sample_ws).1.2
    = pattern_text <$> [mkRow "A" (Some "P2") None]
  ∧ comment_text
    <$> (process_removal sample_columns sample_columns sample_old
                         [mkRow "A" (Some "P2") None] sample_ws).1.2
    = comment_text <$> [mkRow "A" (Some "P2") None]
  ∧ (process_removal sample_columns sample_columns sample_old
                     [mkRow "A" (Some "P2") None] sample_ws).2
    = sample_ws.
Proof.
  apply (no_changes_leaves_cells sample_columns sample_columns
           sample_old [mkRow "A" (Some "P2") None] sample_ws 7);
    vm_compute; reflexivity.
Defined.

Lemma remove_rows_empty_index (new_df : DataFrame) :
  changes_made (remove_rows ∅ new_df) = false.
Proof.
  rewrite remove_rows_spec. cbn [changes_made].
  apply no_changes_existsb, Forall_forall.
  intros r [i Hi]%list_elem_of_lookup.
  unfold reconcile in Hi. rewrite list_lookup_imap in Hi.
  destruct (new_df !! i) as [row|]; [|done]. injection Hi as <-.
  unfold reconcile_row. rewrite lookup_empty.
  cbn [mbind option_bind fst snd changed].
  by rewrite !bool_decide_eq_false_2 by (intros ?; done).
Qed.

(** X10. With an old file that has no rows, or a new file that has no
    rows, the run removes nothing: it ends with the "no ... found to
    remove" message, the pattern cells and the comment cells of the data
    frame are the ones that were loaded, and the persisted sheet is not
    written. *)
Theorem empty_file_no_changes (new_columns old_columns : list string)
    (old_df new_df : DataFrame) (ws : Worksheet) (comment_col : nat) :
  locate_columns new_columns old_columns = inr comment_col →
  old_df = [] ∨ new_df = [] →
  let out := process_removal new_columns old_columns old_df new_df ws in
  out.1.1 = MsgResult no_changes_message
  ∧ pattern_text <$> out.1.2 = pattern_text <$> new_df
  ∧ comment_text <$> out.1.2 = comment_text <$> new_df
  ∧ out.2 = ws.
Proof.
  intros Hcols Hempty out. subst out. unfold process_removal. rewrite Hcols.
  assert (Hch : changes_made (remove_rows (old_patterns_map old_df) new_df)
                = false).
  { destruct Hempty as [->| ->]; [apply remove_rows_empty_index|done]. }
  rewrite Hch. cbn [fst snd]. by rewrite remove_rows_no_changes.
Qed.

Lemma empty_file_no_changes_witness :
  (process_removal sample_columns sample_columns [] sample_new
                   sample_ws).1.1
  = MsgResult no_changes_message
  ∧ pattern_text
    <$> (process_removal sample_columns sample_columns [] sample_new
                         sample_ws).1.2
    = pattern_text <$> sample_new
  ∧ comment_text
    <$> (process_removal sample_columns sample_columns [] sample_new
                         sample_ws).1.2
    = comment_text <$> sample_new
  ∧ (process_removal sample_columns sample_columns [] sample_new
                     sample_ws).2
    = sample_ws.
Proof.
  apply (empty_file_no_changes sample_columns sample_columns [] sample_new
           sample_ws 7); [vm_compute; reflexivity|by left].
Defined.

(** X11. Running the tool a second time, on the data frame and the sheet
    the first run left and with the same old file, removes nothing more:
    it ends with the "no ... found to remove" message and leaves both as
    they are. *)
Theorem process_removal_twice (new_columns old_columns : list string)
    (old_df new_df : DataFrame) (ws : Worksheet) (comment_col : nat) :
  locate_columns new_columns old_columns = inr comment_col →
  let out := process_removal new_columns old_columns old_df new_df ws in
  process_removal new_columns old_columns old_df out.1.2 out.2
  = (MsgResult no_changes_message, out.1.2, out.2).
Proof.
  intros Hcols out.
  assert (Hdf : out.1.2 = imap (updated_row (old_patterns_map old_df)) new_df).
  { subst out. unfold process_removal. rewrite Hcols.
    destruct (changes_made _); cbn [fst snd];
      by rewrite remove_rows_spec. }
  assert (Hch : changes_made (remove_rows (old_patterns_map old_df) out.1.2)
                = false).
  { rewrite Hdf, remove_rows_spec. cbn [changes_made].
    apply no_changes_existsb.
    eapply Forall_impl; [apply second_pass_results|]. by intros r (? & _). }
  unfold process_removal at 1. rewrite Hcols, Hch.
  by rewrite remove_rows_no_changes.
Qed.

Lemma process_removal_twice_witness :
  process_removal sample_columns sample_columns sample_old
    (process_removal sample_columns sample_columns sample_old sample_new
                     sample_ws).1.2
    (process_removal sample_columns sample_columns sample_old sample_new
                     sample_ws).2
  = (MsgResult no_changes_message,
     (process_removal sample_columns sample_columns sample_old sample_new
                      sample_ws).1.2,
     (process_removal sample_columns sample_columns sample_old sample_new
                      sample_ws).2).
Proof.
  apply (process_removal_twice sample_columns sample_columns sample_old
           sample_new sample_ws 7).
  vm_compute. reflexivity.
Defined.

Lemma find_seq_first (f : nat → bool) n : ∀ a x,
  List.find f (seq a n) = Some x →
  a ≤ x < a + n ∧ f x = true ∧ ∀ y, a ≤ y < x → f y = false.
Proof.
  induction n as [|n IH]; intros a x; simpl; [done|].
  destruct (f a) eqn:Ha.
  - intros [= <-]. repeat split; [lia|lia|done|]. intros y Hy. lia.
  - intros Hx. destruct (IH _ _ Hx) as (Hr & Hfx & Hfirst).
    repeat split; [lia|lia|done|]. intros y Hy.
    destruct (decide (y = a)) as [->|Hne]; [done|]. apply Hfirst. lia.
Qed.

Lemma find_seq_none (f : nat → bool) n : ∀ a,
  List.find f (seq a n) = None ↔ ∀ y, a ≤ y < a + n → f y = false.
Proof.
  induction n as [|n IH]; intros a; simpl.
  - split; [|done]. intros _ y Hy. lia.
  - destruct (f a) eqn:Ha.
    + split; [done|]. intros Hall. rewrite Hall in Ha by lia. done.
    + rewrite IH. split; intros Hall y Hy.
      * destruct (decide (y = a)) as [->|Hne]; [done|]. apply Hall. lia.
      * apply Hall. lia.
Qed.

(** The header search finds nothing exactly when no column of row 1,
    from 1 to [max_column], holds the comment header. *)
Lemma find_comment_col_None (ws : Worksheet) :
  find_comment_col ws = None
  ↔ ∀ c, (1 ≤ c ≤ max_column ws)%nat →
         cell_value ws 1 c ≠ Some comment_col_name.
Proof.
  unfold find_comment_col. rewrite find_seq_none.
  split; intros Hall c Hc.
  - eapply bool_decide_eq_false_1. apply Hall. lia.
  - apply bool_decide_eq_false_2, Hall. lia.
Qed.

(** X12. The column the header search returns lies between 1 and
    [max_column], its cell in row 1 holds the comment header, and no
    column before it does: the first match is taken. *)
Theorem find_comment_col_first (ws : Worksheet) (col : nat) :
  find_comment_col ws = Some col →
  (1 ≤ col ≤ max_column ws)%nat
  ∧ cell_value ws 1 col = Some comment_col_name
  ∧ ∀ c, (1 ≤ c < col)%nat → cell_value ws 1 c ≠ Some comment_col_name.
Proof.
  unfold find_comment_col. intros (Hr & Hf & Hfirst)%find_seq_first.
  apply bool_decide_eq_true in Hf. repeat split; [lia|lia|done|].
  intros c Hc. eapply bool_decide_eq_false_1. by apply Hfirst.
Qed.

Lemma find_comment_col_first_witness :
  (1 ≤ 8 ≤ max_column sample_ws)%nat
  ∧ cell_value sample_ws 1 8 = Some comment_col_name
  ∧ ∀ c, (1 ≤ c < 8)%nat → cell_value sample_ws 1 c ≠ Some comment_col_name.
Proof.
  apply (find_comment_col_first sample_ws 8). vm_compute. reflexivity.
Defined.

(** The write-back loop for any outcome of the header search. *)
Lemma write_rows_frame_any letter (l : list Row) : ∀ k ws r c,
  (r < k + 2 ∨ k + 2 + length l ≤ r ∨ (c ≠ 7 ∧ letter ≠ Some c))%nat →
  cell_value (fold_left (write_row letter) (imap (λ i, pair (k + i)) l) ws)
             r c
  = cell_value ws r c.
Proof.
  induction l as [|x l IH]; intros k ws r c Hrc; [done|].
  rewrite imap_cons. cbn [fold_left].
  rewrite (imap_ext _ (λ i, pair (S k + i))) by (intros; simpl; f_equal; lia).
  rewrite IH by (simpl in Hrc; destruct Hrc as [?|[?|?]]; [lia|lia|auto]).
  unfold write_row. destruct letter as [col|].
  - rewrite !cell_write_value, !decide_False; [done|..];
      intros [= <- <-]; simpl in Hrc;
      destruct Hrc as [?|[?|[? ?]]]; try lia; done.
  - rewrite cell_write_value, decide_False; [done|].
    intros [= <- <-]. simpl in Hrc.
    destruct Hrc as [?|[?|[? ?]]]; try lia; done.
Qed.

Lemma write_rows_cells_any col (l : list Row) : ∀ k ws i row,
  l !! i = Some row →
  cell_value (fold_left (write_row (Some col))
                        (imap (λ i, pair (k + i)) l) ws) (k + i + 2) col
  = Some (cell_str (comment_text row))
  ∧ (col ≠ 7 →
     cell_value (fold_left (write_row (Some col))
                           (imap (λ i, pair (k + i)) l) ws) (k + i + 2) 7
     = Some (cell_str (pattern_text row))).
Proof.
  induction l as [|x l IH]; intros k ws i row Hi; [done|].
  rewrite imap_cons. cbn [fold_left].
  rewrite (imap_ext _ (λ i, pair (S k + i))) by (intros; simpl; f_equal; lia).
  destruct i as [|i]; simpl in Hi.
  - injection Hi as ->. rewrite !write_rows_frame_any by lia.
    unfold write_row. split.
    + rewrite cell_write_value, decide_True; [done|]. f_equal; lia.
    + intros Hne. rewrite cell_write_value, decide_False by congruence.
      rewrite cell_write_value, decide_True; [done|]. f_equal; lia.
  - replace (k + S i + 2) with (S k + i + 2) by lia. by apply IH.
Qed.

(** X13. When the comment header is found in a column other than column
    7, the write-back leaves, for every row of the data frame, the
    row's pattern text in column 7 and its comment text in the comment
    column of sheet row ordinal + 2, a blank cell being written as the
    empty string. *)
Theorem write_back_cells (new_df : DataFrame) (ws : Worksheet) (col i : nat)
    (row : Row) :
  find_comment_col ws = Some col →
  col ≠ 7 →
  new_df !! i = Some row →
  cell_value (write_back new_df ws) (i + 2) 7
  = Some (cell_str (pattern_text row))
  ∧ cell_value (write_back new_df ws) (i + 2) col
    = Some (cell_str (comment_text row)).
Proof.
  intros Hfind Hne Hi. unfold write_back. rewrite Hfind.
  destruct (write_rows_cells_any col new_df 0 ws i row Hi) as [Hc Hp].
  split; [by apply Hp|done].
Qed.

Lemma write_back_cells_witness :
  cell_value (write_back sample_new sample_ws) (1 + 2) 7 = Some ""
  ∧ cell_value (write_back sample_new sample_ws) (1 + 2) 8 = Some "".
Proof.
  apply (write_back_cells sample_new sample_ws 8 1 (mkRow "B" None None)).
  - vm_compute. reflexivity.
  - lia.
  - reflexivity.
Defined.

(** X14. The write-back never writes row 1 (the headers), nor a row
    below the data, nor a column other than column 7 and the comment
    column it found: all these cells are as they were. *)
Theorem write_back_frame (new_df : DataFrame) (ws : Worksheet) (r c : nat) :
  (r < 2 ∨ length new_df + 2 ≤ r
   ∨ (c ≠ 7 ∧ find_comment_col ws ≠ Some c))%nat →
  cell_value (write_back new_df ws) r c = cell_value ws r c.
Proof.
  intros Hrc. unfold write_back.
  apply (write_rows_frame_any _ new_df 0 ws r c).
  destruct Hrc as [?|[?|?]]; [left; lia|right; left; lia|by right; right].
Qed.

Lemma write_back_frame_witness :
  cell_value (write_back sample_new sample_ws) 1 7
  = cell_value sample_ws 1 7.
Proof.
  apply (write_back_frame sample_new sample_ws 1 7). left. lia.
Defined.

Lemma extract_lines_cell_str (c : cell) :
  extract_lines (Some (cell_str c)) = extract_lines c.
Proof. done. Qed.

Lemma write_back_pattern_cell (new_df : DataFrame) ws i row :
  find_comment_col ws ≠ Some 7 →
  new_df !! i = Some row →
  cell_value (write_back new_df ws) (i + 2) 7
  = Some (cell_str (pattern_text row)).
Proof.
  intros Hne Hi. unfold write_back.
  destruct (find_comment_col ws) as [col|].
  - apply (write_rows_cells_any col new_df 0 ws i row Hi). congruence.
  - apply (write_rows_pattern new_df 0 ws i row Hi).
Qed.

Lemma write_back_comment_cell (new_df : DataFrame) ws col i row :
  find_comment_col ws = Some col →
  new_df !! i = Some row →
  cell_value (write_back new_df ws) (i + 2) col
  = Some (cell_str (comment_text row)).
Proof.
  intros Hfind Hi. unfold write_back. rewrite Hfind.
  apply (write_rows_cells_any col new_df 0 ws i row Hi).
Qed.

(** X15. After a run that removed something, the persisted sheet agrees
    with the removal: provided the comment header was not found in
    column 7, the lines of the pattern cell of every data row (column 7
    of sheet row ordinal + 2) are exactly the lines the data frame had
    there that are not in the old pattern set of the row's object id;
    and when the comment header was found, so are the lines of the
    comment cell with respect to the old comment set. *)
Theorem persisted_cells_filtered (new_columns old_columns : list string)
    (old_df new_df : DataFrame) (ws : Worksheet) (comment_col i : nat)
    (row : Row) :
  locate_columns new_columns old_columns = inr comment_col →
  changes_made (remove_rows (old_patterns_map old_df) new_df) = true →
  find_comment_col ws ≠ Some 7 →
  new_df !! i = Some row →
  let out := process_removal new_columns old_columns old_df new_df ws in
  extract_lines (cell_value out.2 (i + 2) 7)
  = filter (λ l, l ∉ old_pattern_set (old_patterns_map old_df)
                                     (object_id row))
           (extract_lines (pattern_text row))
  ∧ ∀ col, find_comment_col ws = Some col →
           extract_lines (cell_value out.2 (i + 2) col)
           = filter (λ l, l ∉ old_comment_set (old_patterns_map old_df)
                                              (object_id row))
                    (extract_lines (comment_text row)).
Proof.
  intros Hcols Hch Hne7 Hi out. subst out. unfold process_removal.
  rewrite Hcols, Hch. cbn [snd].
  set (m := old_patterns_map old_df).
  assert (Hrow : df (remove_rows m new_df) !! i = Some (updated_row m i row)).
  { rewrite remove_rows_spec. cbn [df]. by rewrite list_lookup_imap, Hi. }
  split.
  - rewrite (write_back_pattern_cell _ ws i _ Hne7 Hrow).
    rewrite extract_lines_cell_str, updated_row_pattern_lines.
    by rewrite reconcile_row_eq.
  - intros col Hcol.
    rewrite (write_back_comment_cell _ ws col i _ Hcol Hrow).
    rewrite extract_lines_cell_str, updated_row_comment_lines.
    by rewrite reconcile_row_eq.
Qed.

Lemma persisted_cells_filtered_witness :
  extract_lines
    (cell_value (process_removal sample_columns sample_columns sample_old
                                 sample_new sample_ws).2 (0 + 2) 7)
  = filter (λ l, l ∉ old_pattern_set (old_patterns_map sample_old) "A")
           (extract_lines (Some "P1")).
Proof.
  refine (proj1 (persisted_cells_filtered sample_columns sample_columns
                   sample_old sample_new sample_ws 7 0
                   (mkRow "A" (Some "P1") None) _ _ _ _)).
  - vm_compute. reflexivity.
  - vm_compute. reflexivity.
  - vm_compute. discriminate.
  - reflexivity.
Defined.

Lemma index_comments_fold_keys l : ∀ m k,
  is_Some (fold_left index_comments_step l m !! k) →
  is_Some (m !! k) ∨ k ∈ (object_id <$> l).
Proof.
  intros m k. destruct (decide (k ∈ (object_id <$> l))) as [|Hk]; [by right|].
  rewrite index_comments_fold_other by done. by left.
Qed.

(** X16. The index has an entry for an object id exactly when some row
    of the old file carries that id. *)
Theorem index_domain (old_df : DataFrame) (k : string) :
  is_Some (old_patterns_map old_df !! k) ↔ k ∈ (object_id <$> old_df).
Proof.
  split; [|apply old_patterns_map_indexed].
  unfold old_patterns_map.
  intros [Hm|Hin]%index_comments_fold_keys; [|done].
  apply index_patterns_fold_keys in Hm as [Hm|Hin]; [|done].
  rewrite lookup_empty in Hm. by destruct Hm.
Qed.

Lemma progress_messages_values (l : list Row) : ∀ k,
  omap progress_value (imap (λ idx _, QProgress (k + idx + 1)) l)
  = seq (k + 1) (length l)
  ∧ omap max_value (imap (λ idx _, QProgress (k + idx + 1)) l) = []
  ∧ Forall (λ q, is_terminal q = false)
           (imap (λ idx _, QProgress (k + idx + 1)) l).
Proof.
  induction l as [|x l IH]; intros k; [by repeat split|].
  rewrite imap_cons.
  rewrite (imap_ext _ (λ idx _, QProgress (S k + idx + 1)))
    by (intros; simpl; f_equal; lia).
  destruct (IH (S k)) as (Hp & Hm & Ht).
  cbn [omap list_omap progress_value max_value length seq].
  rewrite Hp, Hm. split; [|split].
  - replace (k + 0 + 1) with (k + 1) by lia.
    by replace (S k + 1) with (S (k + 1)) by lia.
  - done.
  - by constructor.
Qed.

(** X17. Every run that raises no exception puts exactly one terminal
    message (['result'] or ['error']) on the queue, as its last message,
    and it is the outcome of the run; every message before it is a
    ['status'], ['max'] or ['progress'] message. *)
Theorem process_messages_terminal (new_columns old_columns : list string)
    (old_df new_df : DataFrame) (ws : Worksheet) :
  ∃ pre,
    process_messages new_columns old_columns old_df new_df
    = pre ++ [to_queue (process_removal new_columns old_columns old_df
                                        new_df ws).1.1]
    ∧ Forall (λ q, is_terminal q = false) pre
    ∧ is_terminal (to_queue (process_removal new_columns old_columns old_df
                                             new_df ws).1.1) = true.
Proof.
  unfold process_messages, process_removal.
  destruct (locate_columns new_columns old_columns) as [err|c].
  - exists [QStatus "Comparing files..."].
    split; [done|]. split; [by repeat constructor|done].
  - destruct (progress_messages_values new_df 0) as (_ & _ & Hprog).
    destruct (changes_made _); cbn [fst to_queue is_terminal].
    + exists ([QStatus "Comparing files...";
               QStatus "Processing old patterns..."; QMax (length new_df);
               QStatus "Removing patterns and comments..."]
              ++ imap (λ idx _, QProgress (idx + 1)) new_df
              ++ [QStatus "Saving changes to Excel file..."]).
      split; [|split; [|done]].
      * cbn [app]. by rewrite <- ?app_assoc.
      * apply Forall_app. split; [by repeat constructor|].
        apply Forall_app. split; [exact Hprog|by repeat constructor].
    + exists ([QStatus "Comparing files...";
               QStatus "Processing old patterns..."; QMax (length new_df);
               QStatus "Removing patterns and comments..."]
              ++ imap (λ idx _, QProgress (idx + 1)) new_df).
      split; [|split; [|done]].
      * cbn [app]. by rewrite <- ?app_assoc.
      * apply Forall_app. split; [by repeat constructor|exact Hprog].
Qed.

(** X18. When the column checks pass, the queue carries one ['max']
    message, with the number of rows of the new file, and the
    ['progress'] messages count 1, 2, ... up to that number, one per
    row and in order. *)
Theorem progress_counts_rows (new_columns old_columns : list string)
    (old_df new_df : DataFrame) (comment_col : nat) :
  locate_columns new_columns old_columns = inr comment_col →
  omap max_value (process_messages new_columns old_columns old_df new_df)
  = [length new_df]
  ∧ omap progress_value
         (process_messages new_columns old_columns old_df new_df)
    = seq 1 (length new_df).
Proof.
  intros Hcols. unfold process_messages. rewrite Hcols.
  destruct (progress_messages_values new_df 0) as (Hp & Hm & _).
  cbn [Nat.add] in Hp, Hm.
  cbn [app omap list_omap max_value progress_value].
  rewrite !omap_app, Hp, Hm.
  destruct (changes_made _);
    cbn [omap list_omap max_value progress_value app];
    by rewrite app_nil_r.
Qed.

Lemma progress_counts_rows_witness :
  omap max_value (process_messages sample_columns sample_columns sample_old
                                   sample_new)
  = [length sample_new]
  ∧ omap progress_value
         (process_messages sample_columns sample_columns sample_old
                           sample_new)
    = seq 1 (length sample_new).
Proof.
  apply (progress_counts_rows sample_columns sample_columns sample_old
                              sample_new 7).
  vm_compute. reflexivity.
Defined.

(** X19. The lines read from a cell are stable: each is non-empty, has
    no whitespace at either end and no newline, and a cell that holds
    them joined by newlines (what the loop writes into a changed cell)
    reads back as the same lines. *)
Theorem extract_lines_stable (c : cell) :
  Forall clean_line (extract_lines c)
  ∧ extract_lines (Some (join_nl (extract_lines c))) = extract_lines c.
Proof.
  split; [apply extract_lines_clean|].
  apply extract_lines_join, extract_lines_clean.
Qed.

(** X20. The report lists are built row by row in the order of the data
    frame and, within a row, in the order of the lines of the cell: each
    list is the concatenation, over the rows, of the entries
    "Row {ordinal + 2}: {line}" for the lines of the cell that are in
    the old set of the row's object id (a line that occurs twice is
    reported twice). *)
Theorem reports_in_row_order (m : gmap string Entry) (new_df : DataFrame) :
  removed_patterns (remove_rows m new_df)
  = concat (imap (λ i row,
                    removed_entry i
                    <$> filter (λ l, l ∈ old_pattern_set m (object_id row))
                               (extract_lines (pattern_text row)))
                 new_df)
  ∧ removed_comments (remove_rows m new_df)
    = concat (imap (λ i row,
                      removed_entry i
                      <$> filter (λ l, l ∈ old_comment_set m (object_id row))
                                 (extract_lines (comment_text row)))
                   new_df).
Proof.
  rewrite remove_rows_spec. cbn [removed_patterns removed_comments].
  unfold reconcile. rewrite !fmap_imap.
  split; f_equal; apply imap_ext; intros i row _; unfold compose;
    by rewrite reconcile_row_eq.
Qed.

(** X21. When the comment header of the persisted sheet sits in column 7
    itself, the write-back writes the comment text over the pattern
    text: column 7 of every data row ends up holding the row's comment
    text. *)
Theorem comment_header_in_column_7 (new_df : DataFrame) (ws : Worksheet)
    (i : nat) (row : Row) :
  find_comment_col ws = Some 7 →
  new_df !! i = Some row →
  cell_value (write_back new_df ws) (i + 2) 7
  = Some (cell_str (comment_text row)).
Proof. apply write_back_comment_cell. Qed.

Lemma comment_header_in_column_7_witness :
  cell_value
    (write_back [mkRow "A" (Some "P1") (Some "c")]
                (mkWorksheet 7 {[ (1, 7) := comment_col_name ]}))
    (0 + 2) 7
  = Some "c".
Proof.
  apply (comment_header_in_column_7
           [mkRow "A" (Some "P1") (Some "c")]
           (mkWorksheet 7 {[ (1, 7) := comment_col_name ]}) 0
           (mkRow "A" (Some "P1") (Some "c"))).
  - vm_compute. reflexivity.
  - reflexivity.
Defined.

(** X22. A cell all of whose lines are in the old set, and that has at
    least one line, is left holding the empty string (not a blank
    cell): the loop writes the join of no lines. *)
Theorem fully_removed_cell_empty (m : gmap string Entry) (new_df : DataFrame)
    (i : nat) (row : Row) :
  new_df !! i = Some row →
  extract_lines (pattern_text row) ≠ [] →
  Forall (λ l, l ∈ old_pattern_set m (object_id row))
         (extract_lines (pattern_text row)) →
  pattern_text <$> df (remove_rows m new_df) !! i = Some (Some "").
Proof.
  intros Hi Hne Hall. rewrite remove_rows_spec. cbn [df].
  rewrite list_lookup_imap, Hi. cbn [fmap option_fmap option_map].
  unfold updated_row. rewrite reconcile_row_eq.
  cbn [filtered_pattern_lines pattern_text].
  rewrite (filter_none (λ l, l ∉ _)).
  - rewrite decide_True; [done|].
    destruct (extract_lines (pattern_text row)); done.
  - eapply Forall_impl; [exact Hall|]. by intros l Hl Hn.
Qed.

Lemma fully_removed_cell_empty_witness :
  pattern_text
    <$> df (remove_rows (old_patterns_map sample_old) sample_new) !! 0
  = Some (Some "").
Proof.
  apply (fully_removed_cell_empty (old_patterns_map sample_old) sample_new 0
           (mkRow "A" (Some "P1") None)).
  - reflexivity.
  - vm_compute. discriminate.
  - vm_compute. constructor; [|constructor]. vm_compute. reflexivity.
Defined.
